(** * gr-osmosdr, AirSpy source block ([lib/airspy/airspy_source_c.cc])

    A shallow embedding of the sample FIFO (producer callback, consumer
    [work]), the lifecycle calls [start]/[stop] and the control setters,
    together with the properties the design document states about them. *)

From Stdlib Require Import String ZArith List Bool Lia PrimFloat FloatOps SpecFloat.
Import ListNotations.
Set Warnings "-inexact-float".
Open Scope Z_scope.

(** ** Machine integers and floating point

    [int] is 32 bits, [size_t] and [uint64_t] are 64 bits; a value that
    leaves its type wraps as written here.  [double] is IEEE binary64,
    which is what the kernel's primitive floats are.  The [float] samples
    of the device are only moved, never computed on; they are carried by
    the same type (binary32 embeds in binary64). *)

Definition to_size_t (x : Z) : Z := x mod 2 ^ 64.
Definition to_int (x : Z) : Z := (x + 2 ^ 31) mod 2 ^ 32 - 2 ^ 31.
Definition INT_MAX : Z := 2 ^ 31 - 1.

Definition double : Type := float.
Bind Scope float_scope with double.
Definition c_float : Type := float.

(** Integer part of a double, toward zero; [None] for NaN and infinities. *)
Definition trunc_double (x : double) : option Z :=
  match Prim2SF x with
  | S754_zero _ => Some 0
  | S754_finite s m e =>
      let mag := Z.shiftl (Z.pos m) e in
      Some (if s then - mag else mag)
  | S754_infinity _ => None
  | S754_nan => None
  end.

(** The cast [uintN_t(x)] of a double: the truncated value when the
    unsigned type can hold it, undefined ([None]) otherwise. *)
Definition double_to_unsigned (bits : Z) (x : double) : option Z :=
  match trunc_double x with
  | Some z => if (0 <=? z) && (z <? 2 ^ bits) then Some z else None
  | None => None
  end.

(** ** Complex samples and [boost::circular_buffer] *)

Record gr_complex : Type := mk_complex { real : c_float; imag : c_float }.

Module CircularBuffer.

Record t : Type := mk { capacity : Z; elems : list gr_complex }.

Definition size (b : t) : Z := Z.of_nat (length (elems b)).

(** [push_back] on a full buffer overwrites the oldest element; on a
    buffer of capacity zero it does nothing. *)
Definition push_back (x : gr_complex) (b : t) : t :=
  if capacity b =? 0 then b
  else if size b =? capacity b then mk (capacity b) (tl (elems b) ++ [x])
  else mk (capacity b) (elems b ++ [x]).

(** [at(i)] is range-checked: [None] stands for [std::out_of_range]. *)
Definition at_ (i : nat) (b : t) : option gr_complex := nth_error (elems b) i.

Definition pop_front (b : t) : t := mk (capacity b) (tl (elems b)).

End CircularBuffer.

Module CB := CircularBuffer.

(** ** libairspy and the range helper

    The device library is outside the repository: a call on an open
    handle returns a status code and may change the device.  The calls
    the block makes are listed by name, with their arguments. *)

Inductive callback_fn : Type := _airspy_rx_callback.

Inductive airspy_call : Type :=
| airspy_start_rx (callback : callback_fn) (ctx : Z)
| airspy_stop_rx
| airspy_set_samplerate (samplerate : Z)
| airspy_set_freq (freq_hz : Z)
| airspy_set_lna_gain (value : Z)
| airspy_set_mixer_gain (value : Z)
| airspy_set_vga_gain (value : Z)
| airspy_set_linearity_gain (value : Z)
| airspy_set_sensitivity_gain (value : Z)
| airspy_set_lna_agc (value : Z)
| airspy_set_mixer_agc (value : Z).

Definition AIRSPY_SUCCESS : Z := 0.
Definition AIRSPY_TRUE : Z := 1.
Definition WORK_DONE : Z := -1.

Class AirspyLib : Type := {
  airspy_device : Type;
  airspy_do : airspy_call -> airspy_device -> Z * airspy_device;
  airspy_is_streaming : airspy_device -> Z
}.

Record range_t : Type :=
  mk_range { range_start : double; range_stop : double; range_step : double }.

(** [osmosdr::meta_range_t] is a vector of ranges. *)
Definition gain_range_t : Type := list range_t.

(** [meta_range_t::clip(value, clip_step)] lives in the ranges helper of
    the library, which is not part of this file. *)
Class MetaRange : Type := {
  clip : gain_range_t -> double -> bool -> double
}.

Inductive gain_policy : Type := linearity | sensitivity.

(** What a [std::runtime_error] thrown by the block says. *)
Inductive runtime_error : Type :=
| Unsupported_samplerate (rate : double)
| airspy_func_failed (func : string) (ret : Z).

Inductive outcome (A : Type) : Type :=
| Returns (a : A)
| Throws (e : runtime_error)
| Undefined.
Arguments Returns {A} a.
Arguments Throws {A} e.
Arguments Undefined {A}.

(** ** The block's state and its methods *)

Section Block.

Context {lib : AirspyLib} {ranges : MetaRange}.

(** The data members of [airspy_source_c].  [_dev = None] is the null
    handle; an open handle carries the device behind it. *)
Record airspy_source_c : Type := mk_block {
  _dev : option airspy_device;
  _sample_rates : list (double * Z);
  _sample_rate : double;
  _center_freq : double;
  _freq_corr : double;
  _auto_gain : bool;
  _gain_policy : gain_policy;
  _gain : double;
  _lna_gain : double;
  _mix_gain : double;
  _vga_gain : double;
  _bandwidth : double;
  _fifo : CB.t
}.

Definition upd_dev (d : option airspy_device) (o : airspy_source_c) :=
  mk_block d (_sample_rates o) (_sample_rate o) (_center_freq o) (_freq_corr o)
    (_auto_gain o) (_gain_policy o) (_gain o) (_lna_gain o) (_mix_gain o)
    (_vga_gain o) (_bandwidth o) (_fifo o).
Definition upd_sample_rate (x : double) (o : airspy_source_c) :=
  mk_block (_dev o) (_sample_rates o) x (_center_freq o) (_freq_corr o)
    (_auto_gain o) (_gain_policy o) (_gain o) (_lna_gain o) (_mix_gain o)
    (_vga_gain o) (_bandwidth o) (_fifo o).
Definition upd_center_freq (x : double) (o : airspy_source_c) :=
  mk_block (_dev o) (_sample_rates o) (_sample_rate o) x (_freq_corr o)
    (_auto_gain o) (_gain_policy o) (_gain o) (_lna_gain o) (_mix_gain o)
    (_vga_gain o) (_bandwidth o) (_fifo o).
Definition upd_freq_corr (x : double) (o : airspy_source_c) :=
  mk_block (_dev o) (_sample_rates o) (_sample_rate o) (_center_freq o) x
    (_auto_gain o) (_gain_policy o) (_gain o) (_lna_gain o) (_mix_gain o)
    (_vga_gain o) (_bandwidth o) (_fifo o).
Definition upd_auto_gain (x : bool) (o : airspy_source_c) :=
  mk_block (_dev o) (_sample_rates o) (_sample_rate o) (_center_freq o) (_freq_corr o)
    x (_gain_policy o) (_gain o) (_lna_gain o) (_mix_gain o)
    (_vga_gain o) (_bandwidth o) (_fifo o).
Definition upd_gain (x : double) (o : airspy_source_c) :=
  mk_block (_dev o) (_sample_rates o) (_sample_rate o) (_center_freq o) (_freq_corr o)
    (_auto_gain o) (_gain_policy o) x (_lna_gain o) (_mix_gain o)
    (_vga_gain o) (_bandwidth o) (_fifo o).
Definition upd_lna_gain (x : double) (o : airspy_source_c) :=
  mk_block (_dev o) (_sample_rates o) (_sample_rate o) (_center_freq o) (_freq_corr o)
    (_auto_gain o) (_gain_policy o) (_gain o) x (_mix_gain o)
    (_vga_gain o) (_bandwidth o) (_fifo o).
Definition upd_mix_gain (x : double) (o : airspy_source_c) :=
  mk_block (_dev o) (_sample_rates o) (_sample_rate o) (_center_freq o) (_freq_corr o)
    (_auto_gain o) (_gain_policy o) (_gain o) (_lna_gain o) x
    (_vga_gain o) (_bandwidth o) (_fifo o).
Definition upd_vga_gain (x : double) (o : airspy_source_c) :=
  mk_block (_dev o) (_sample_rates o) (_sample_rate o) (_center_freq o) (_freq_corr o)
    (_auto_gain o) (_gain_policy o) (_gain o) (_lna_gain o) (_mix_gain o)
    x (_bandwidth o) (_fifo o).
Definition upd_fifo (x : CB.t) (o : airspy_source_c) :=
  mk_block (_dev o) (_sample_rates o) (_sample_rate o) (_center_freq o) (_freq_corr o)
    (_auto_gain o) (_gain_policy o) (_gain o) (_lna_gain o) (_mix_gain o)
    (_vga_gain o) (_bandwidth o) x.

(** *** Methods that talk to the device

    A method takes the object, and gives back what it returned or
    threw, the object as it left it, and the device calls it made, in
    order.  An exception keeps the assignments made before it. *)

Definition M (A : Type) : Type :=
  airspy_source_c -> outcome A * airspy_source_c * list airspy_call.

Definition ret {A} (a : A) : M A := fun o => (Returns a, o, []).

Definition bind {A B} (m : M A) (k : A -> M B) : M B :=
  fun o =>
    match m o with
    | (Returns a, o1, t1) =>
        match k a o1 with (r, o2, t2) => (r, o2, t1 ++ t2) end
    | (Throws e, o1, t1) => (Throws e, o1, t1)
    | (Undefined, o1, t1) => (Undefined, o1, t1)
    end.

Definition throw {A} (e : runtime_error) : M A := fun o => (Throws e, o, []).
Definition undefined {A} : M A := fun o => (Undefined, o, []).
Definition get : M airspy_source_c := fun o => (Returns o, o, []).
Definition modify (f : airspy_source_c -> airspy_source_c) : M unit :=
  fun o => (Returns tt, f o, []).

(** One libairspy call on [_dev].  The library dereferences the handle,
    so a call on the null handle is undefined. *)
Definition call (c : airspy_call) : M Z :=
  fun o =>
    match _dev o with
    | Some d => let (r, d') := airspy_do c d in (Returns r, upd_dev (Some d') o, [c])
    | None => (Undefined, o, [])
    end.

End Block.

Declare Scope block_scope.
Delimit Scope block_scope with block.
Notation "x <- m ;; k" := (bind m (fun x => k))
  (at level 61, m at next level, right associativity) : block_scope.
Notation "m ;;; k" := (bind m (fun _ => k))
  (at level 61, right associativity) : block_scope.

Section Methods.

Context {lib : AirspyLib} {ranges : MetaRange}.
Local Open Scope block_scope.

(** The message of [AIRSPY_FUNC_STR], its argument left unformatted. *)
Definition AIRSPY_FUNC_STR (func : string) : string :=
  (func ++ "(%d) has failed")%string.

Definition AIRSPY_THROW_ON_ERROR (r : Z) (msg : string) : M unit :=
  if r =? AIRSPY_SUCCESS then ret tt else throw (airspy_func_failed msg r).

(** *** Lifecycle: [start] and [stop].  [this] is the address of the
    object, handed to the library as the callback's context. *)

Definition start (this : Z) : M bool :=
  o <- get ;;
  match _dev o with
  | None => ret false
  | Some _ =>
      r <- call (airspy_start_rx _airspy_rx_callback this) ;;
      if negb (r =? AIRSPY_SUCCESS) then ret false else ret true
  end.

Definition stop : M bool :=
  o <- get ;;
  match _dev o with
  | None => ret false
  | Some _ =>
      r <- call airspy_stop_rx ;;
      if negb (r =? AIRSPY_SUCCESS) then ret false else ret true
  end.

(** *** Sample rate *)

Definition get_sample_rate : M double := o <- get ;; ret (_sample_rate o).

(** The search loop of [set_sample_rate]: every entry is visited, a
    later match replaces an earlier one. *)
Fixpoint find_rate (rates : list (double * Z)) (rate : double)
         (found_supported_rate : bool) (samp_rate_index : Z) : bool * Z :=
  match rates with
  | [] => (found_supported_rate, samp_rate_index)
  | (first, second) :: rest =>
      if PrimFloat.eqb first rate
      then find_rate rest rate true second
      else find_rate rest rate found_supported_rate samp_rate_index
  end.

Definition set_sample_rate (rate : double) : M double :=
  o <- get ;;
  match _dev o with
  | Some _ =>
      let '(found_supported_rate, samp_rate_index) :=
        find_rate (_sample_rates o) rate false 0 in
      if negb found_supported_rate
      then throw (Unsupported_samplerate rate)
      else
        r <- call (airspy_set_samplerate samp_rate_index) ;;
        if AIRSPY_SUCCESS =? r
        then modify (upd_sample_rate rate)
        else AIRSPY_THROW_ON_ERROR r (AIRSPY_FUNC_STR "airspy_set_samplerate")
  | None => ret tt
  end ;;;
  get_sample_rate.

(** *** Centre frequency and its correction *)

Definition APPLY_PPM_CORR (val ppm : double) : double :=
  (val * (1.0 + ppm * 0.000001))%float.

Definition get_center_freq : M double := o <- get ;; ret (_center_freq o).
Definition get_freq_corr : M double := o <- get ;; ret (_freq_corr o).

Definition set_center_freq (freq : double) : M double :=
  o <- get ;;
  match _dev o with
  | Some _ =>
      let corr_freq := APPLY_PPM_CORR freq (_freq_corr o) in
      match double_to_unsigned 64 corr_freq with
      | None => undefined
      | Some hz =>
          r <- call (airspy_set_freq hz) ;;
          if AIRSPY_SUCCESS =? r
          then modify (upd_center_freq freq)
          else AIRSPY_THROW_ON_ERROR r (AIRSPY_FUNC_STR "airspy_set_freq")
      end
  | None => ret tt
  end ;;;
  get_center_freq.

Definition set_freq_corr (ppm : double) : M double :=
  modify (upd_freq_corr ppm) ;;;
  o <- get ;;
  set_center_freq (_center_freq o) ;;;
  get_freq_corr.

(** *** Gains *)

Definition get_gain_range : gain_range_t := [mk_range 0 21 1]%float.

Definition get_gain_range_named (name : string) : gain_range_t :=
  if String.eqb "LNA" name then [mk_range 0 15 1]%float
  else if String.eqb "MIX" name then [mk_range 0 15 1]%float
  else if String.eqb "IF" name then [mk_range 0 15 1]%float
  else [].

(** The body shared by the three per-stage setters: clip, narrow to
    [uint8_t], send, and cache the clipped value once accepted. *)
Definition set_stage_gain (gains : gain_range_t) (gain : double)
           (cmd : Z -> airspy_call) (func : string)
           (store : double -> airspy_source_c -> airspy_source_c) : M unit :=
  let clip_gain := clip gains gain true in
  match double_to_unsigned 8 clip_gain with
  | None => undefined
  | Some value =>
      r <- call (cmd value) ;;
      if AIRSPY_SUCCESS =? r
      then modify (store clip_gain)
      else AIRSPY_THROW_ON_ERROR r (AIRSPY_FUNC_STR func)
  end.

Definition set_lna_gain (gain : double) : M double :=
  let gains := get_gain_range_named "LNA" in
  o <- get ;;
  match _dev o with
  | Some _ => set_stage_gain gains gain airspy_set_lna_gain "airspy_set_lna_gain" upd_lna_gain
  | None => ret tt
  end ;;;
  o' <- get ;; ret (_lna_gain o').

Definition set_mix_gain (gain : double) : M double :=
  let gains := get_gain_range_named "MIX" in
  o <- get ;;
  match _dev o with
  | Some _ => set_stage_gain gains gain airspy_set_mixer_gain "airspy_set_mixer_gain" upd_mix_gain
  | None => ret tt
  end ;;;
  o' <- get ;; ret (_mix_gain o').

Definition set_if_gain (gain : double) : M double :=
  let gains := get_gain_range_named "MIX" in
  o <- get ;;
  match _dev o with
  | Some _ => set_stage_gain gains gain airspy_set_vga_gain "airspy_set_vga_gain" upd_vga_gain
  | None => ret tt
  end ;;;
  o' <- get ;; ret (_vga_gain o').

Definition set_gain (gain : double) : M double :=
  let gains := get_gain_range in
  o <- get ;;
  match _dev o with
  | Some _ =>
      match _gain_policy o with
      | linearity =>
          set_stage_gain gains gain airspy_set_linearity_gain
            "airspy_set_linearity_gain" upd_gain
      | sensitivity =>
          set_stage_gain gains gain airspy_set_sensitivity_gain
            "airspy_set_sensitivity_gain" upd_gain
      end
  | None => ret tt
  end ;;;
  o' <- get ;; ret (_gain o').

Definition get_gain_mode : M bool := o <- get ;; ret (_auto_gain o).

Definition set_gain_mode (automatic : bool) : M bool :=
  (if automatic then
     call (airspy_set_lna_agc 1) ;;;
     call (airspy_set_mixer_agc 1) ;;;
     ret tt
   else
     call (airspy_set_lna_agc 0) ;;;
     call (airspy_set_mixer_agc 0) ;;;
     o <- get ;;
     set_lna_gain (_lna_gain o) ;;;
     o' <- get ;;
     set_mix_gain (_mix_gain o') ;;;
     ret tt) ;;;
  modify (upd_auto_gain automatic) ;;;
  get_gain_mode.

End Methods.

(** ** The sample path: device callback (producer) and [work] (consumer) *)

Section Streaming.

Context {lib : AirspyLib} {ranges : MetaRange}.

(** What one run of the callback leaves outside the object: its return
    value, whether [_samp_avail.notify_one()] was called, and what it
    wrote to [std::cerr]. *)
Record callback_result : Type := mk_callback_result {
  cb_return : Z;
  cb_notified : bool;
  cb_cerr : string
}.

(** The copy loop.  [sample] is the memory from the moving pointer on;
    each round reads [*sample] and [*(sample+1)] and advances by two.
    Reading past the end of the transfer is undefined ([None]). *)
Fixpoint push_samples (to_copy : nat) (sample : list c_float) (fifo : CB.t)
  : option CB.t :=
  match to_copy with
  | O => Some fifo
  | S k =>
      match sample with
      | i :: q :: rest => push_samples k rest (CB.push_back (mk_complex i q) fifo)
      | _ => None
      end
  end.

Definition airspy_rx_callback (samples : list c_float) (sample_count : Z)
           (o : airspy_source_c) : option (callback_result * airspy_source_c) :=
  let num_samples := to_size_t sample_count in
  let n_avail := to_size_t (CB.capacity (_fifo o) - CB.size (_fifo o)) in
  let to_copy := if n_avail <? num_samples then n_avail else num_samples in
  match push_samples (Z.to_nat to_copy) samples (_fifo o) with
  | None => None
  | Some fifo =>
      Some (mk_callback_result 0
              (negb (to_copy =? 0))
              (if to_copy <? num_samples then "O"%string else ""%string),
            upd_fifo fifo o)
  end.

(** The number of leading samples of the batch the callback took. *)
Definition accepted (before after : airspy_source_c) : Z :=
  CB.size (_fifo after) - CB.size (_fifo before).

(** The drain loop of [work]: [out[i] = _fifo->at(0); _fifo->pop_front()]. *)
Fixpoint drain (n : nat) (fifo : CB.t) : option (list gr_complex * CB.t) :=
  match n with
  | O => Some ([], fifo)
  | S k =>
      match CB.at_ 0 fifo with
      | None => None
      | Some x =>
          match drain k (CB.pop_front fifo) with
          | None => None
          | Some (out, fifo') => Some (x :: out, fifo')
          end
      end
  end.

(** What the other threads do while the consumer is suspended in
    [_samp_avail.wait(lock)]: the device thread runs the callback, some
    thread calls [stop], or the consumer is woken (by a notification or
    spuriously) and gets the lock back.  The callback's critical section
    and the consumer's run under the same mutex, so they alternate
    whole. *)
Inductive event : Type :=
| EvCallback (samples : list c_float) (sample_count : Z)
| EvStop
| EvWake.

Inductive wait_result : Type :=
| Ready (o : airspy_source_c)
| StillWaiting (o : airspy_source_c)
| WaitUndefined.

(** The wait loop.  [checking] says the consumer holds the lock and is
    at the loop's condition; otherwise it sleeps in [wait] and only
    [EvWake] brings it back to the condition. *)
Fixpoint wait_for_samples (noutput_items : Z) (sched : list event)
         (checking : bool) (o : airspy_source_c) : wait_result :=
  let n_samples_avail := to_int (CB.size (_fifo o)) in
  if checking && negb (n_samples_avail <? noutput_items) then Ready o
  else
    match sched with
    | [] => StillWaiting o
    | EvWake :: rest => wait_for_samples noutput_items rest true o
    | EvCallback samples sample_count :: rest =>
        match airspy_rx_callback samples sample_count o with
        | None => WaitUndefined
        | Some (_, o') => wait_for_samples noutput_items rest false o'
        end
    | EvStop :: rest =>
        match stop o with
        | (_, o', _) => wait_for_samples noutput_items rest false o'
        end
    end.

Inductive work_result : Type :=
| WorkReturned (n : Z) (out : list gr_complex) (o : airspy_source_c)
| WorkBlocked (o : airspy_source_c)
| WorkOutOfRange (o : airspy_source_c)
| WorkUndefined.

(** [work(noutput_items, _, output_items)]; [out] is what it stored in
    [output_items[0]], and [sched] what happens around it while it
    waits.  The schedule ending with the consumer still in the loop is
    [WorkBlocked]. *)
Definition work (noutput_items : Z) (sched : list event) (o : airspy_source_c)
  : work_result :=
  let running :=
    match _dev o with
    | Some d => airspy_is_streaming d =? AIRSPY_TRUE
    | None => false
    end in
  if negb running then WorkReturned WORK_DONE [] o
  else
    match wait_for_samples noutput_items sched true o with
    | Ready o' =>
        match drain (Z.to_nat noutput_items) (_fifo o') with
        | Some (out, fifo) => WorkReturned noutput_items out (upd_fifo fifo o')
        | None => WorkOutOfRange o'
        end
    | StillWaiting o' => WorkBlocked o'
    | WaitUndefined => WorkUndefined
    end.

(** The state the object is in once the other threads have run
    [sched] (the consumer's wake-ups change nothing). *)
Fixpoint run_events (sched : list event) (o : airspy_source_c)
  : option airspy_source_c :=
  match sched with
  | [] => Some o
  | EvWake :: rest => run_events rest o
  | EvCallback samples sample_count :: rest =>
      match airspy_rx_callback samples sample_count o with
      | None => None
      | Some (_, o') => run_events rest o'
      end
  | EvStop :: rest =>
      match stop o with
      | (_, o', _) => run_events rest o'
      end
  end.

(** Decoding of an interleaved I/Q buffer, pair by pair. *)
Fixpoint decode_iq (raw : list c_float) (n : nat) : list gr_complex :=
  match n, raw with
  | S k, i :: q :: rest => mk_complex i q :: decode_iq rest k
  | _, _ => []
  end.

End Streaming.

(** ** A simulated device and range helper, to run the block on

    The simulated device answers every call with the code [sim_code];
    when that is success, starting and stopping switch its streaming
    flag. *)

Record sim_device : Type := mk_sim { sim_streaming : bool; sim_code : Z }.

Definition sim_do (c : airspy_call) (d : sim_device) : Z * sim_device :=
  if sim_code d =? AIRSPY_SUCCESS then
    match c with
    | airspy_start_rx _ _ => (AIRSPY_SUCCESS, mk_sim true (sim_code d))
    | airspy_stop_rx => (AIRSPY_SUCCESS, mk_sim false (sim_code d))
    | _ => (AIRSPY_SUCCESS, d)
    end
  else (sim_code d, d).

#[local] Instance sim_lib : AirspyLib := {|
  airspy_device := sim_device;
  airspy_do := sim_do;
  airspy_is_streaming := fun d => if sim_streaming d then AIRSPY_TRUE else 0
|}.

(** Nearest integer, halves away from zero, of a finite double that is
    not negative; any other double is returned as it is. *)
Definition round_nonneg (x : double) : double :=
  match Prim2SF x with
  | S754_finite false m e =>
      let q := Z.shiftl (Z.pos m) e in
      let half := Z.testbit (Z.pos m) (- e - 1) in
      match (if half then (q + 1)%Z else q) with
      | Z.pos p => SF2Prim (S754_finite false p 0)
      | _ => zero
      end
  | _ => x
  end.

(** Modelled from the spec: [meta_range_t::clip] is defined in the ranges
    helper of the library, not in the block's source; the design says a
    setter
    "validates/clips the requested value against a discovered range".
    For a one-range meta-range: below the range its start, above it (and
    for NaN) its stop, inside it the nearest step when [clip_step] is set
    and the step is not zero. *)
Definition clip_one (r : range_t) (value : double) (clip_step : bool) : double :=
  if (value <? range_start r)%float then range_start r
  else if (value <=? range_stop r)%float then
    if negb clip_step || (range_step r =? 0)%float then value
    else (round_nonneg ((value - range_start r) / range_step r) * range_step r
          + range_start r)%float
  else range_stop r.

#[local] Instance sim_ranges : MetaRange := {|
  clip := fun gains value clip_step =>
            match gains with
            | r :: _ => clip_one r value clip_step
            | [] => value
            end
|}.

(** A rate list as the constructor leaves it: sorted by rate, each rate
    with the index the device knows it by. *)
Definition sim_rates : list (double * Z) :=
  [(2500000%float, 1); (10000000%float, 0)].

(** The block with the simulated device behind its handle, everything
    else at the values of the constructor's initialiser list ([_gain],
    which the list leaves out, at zero) and an empty FIFO of capacity
    [cap]. *)
Definition sim_block (d : option sim_device) (cap : Z) : airspy_source_c :=
  mk_block d sim_rates zero zero zero false linearity zero zero zero zero zero
    (CB.mk cap []).

Definition sample_of (k : Z) : list c_float :=
  [SF2Prim (S754_finite false (Z.to_pos k) 0); zero].

(** An interleaved I/Q buffer of the samples (1,0), (2,0), ..., (k,0). *)
Definition ramp (k : nat) : list c_float :=
  flat_map (fun i => sample_of (Z.of_nat i)) (seq 1 k).

(** Blocks to run: handle open on a device that accepts every call and
    is idle ([open0]) or streaming ([run0]); on one that refuses every
    call ([refusing0]); handle null ([closed0]). *)
Definition open0 : airspy_source_c := sim_block (Some (mk_sim false AIRSPY_SUCCESS)) 10.
Definition run0 : airspy_source_c := sim_block (Some (mk_sim true AIRSPY_SUCCESS)) 10.
Definition refusing0 : airspy_source_c := sim_block (Some (mk_sim false (-5))) 10.
Definition closed0 : airspy_source_c := sim_block None 10.

(** [open0] after the three per-stage gains were set by hand and the
    automatic mode was then switched on. *)
Definition agc0 : airspy_source_c :=
  snd (fst ((set_lna_gain 3%float ;;; set_mix_gain 4%float ;;;
             set_if_gain 7%float ;;; set_gain_mode true)%block open0)).

(** ** Reading off a method's run *)

Section Runs.

Context {lib : AirspyLib}.

Definition result_of {A} (m : M A) (o : airspy_source_c) : outcome A := fst (fst (m o)).
Definition state_after {A} (m : M A) (o : airspy_source_c) : airspy_source_c := snd (fst (m o)).
Definition calls_made {A} (m : M A) (o : airspy_source_c) : list airspy_call := snd (m o).

End Runs.

(** ** Predicates used in the statements *)

Section Predicates.

Context {lib : AirspyLib}.

(** The buffer holds no more than its capacity, and its capacity fits
    the [int] that [work] reads the size into. *)
Definition fifo_ok (o : airspy_source_c) : Prop :=
  CB.size (_fifo o) <= CB.capacity (_fifo o) <= INT_MAX.

(** The handle is open and the device says it is streaming. *)
Definition streaming (o : airspy_source_c) : Prop :=
  exists d, _dev o = Some d /\ airspy_is_streaming d = AIRSPY_TRUE.

(** A schedule in which the device thread delivers nothing. *)
Definition no_callback (sched : list event) : bool :=
  forallb (fun e => match e with EvCallback _ _ => false | _ => true end) sched.

(** The events of a run of callbacks, one per transfer. *)
Definition callbacks (batches : list (list c_float * Z)) : list event :=
  map (fun b => EvCallback (fst b) (snd b)) batches.

(** A transfer of [snd b] samples carries twice as many floats. *)
Definition well_formed (b : list c_float * Z) : Prop :=
  0 <= snd b <= INT_MAX /\ Z.of_nat (length (fst b)) = 2 * snd b.

(** The comparison [_sample_rates[i].first == rate] of the search loop. *)
Definition rate_matches (rate : double) (e : double * Z) : bool :=
  PrimFloat.eqb (fst e) rate.

Definition total_count (batches : list (list c_float * Z)) : Z :=
  fold_right (fun b acc => snd b + acc) 0 batches.

Definition decode_all (batches : list (list c_float * Z)) : list gr_complex :=
  flat_map (fun b => decode_iq (fst b) (Z.to_nat (snd b))) batches.

End Predicates.

(** ** The rest of the control surface, and teardown *)

Section MoreMethods.

Context {lib : AirspyLib} {ranges : MetaRange}.
Local Open Scope block_scope.

Definition get_gain : M double := o <- get ;; ret (_gain o).

(** [get_gain(name, chan)]: the cached gain of the named stage, the
    overall gain for any other name. *)
Definition get_gain_named (name : string) : M double :=
  if String.eqb "LNA" name then o <- get ;; ret (_lna_gain o)
  else if String.eqb "MIX" name then o <- get ;; ret (_mix_gain o)
  else if String.eqb "IF" name then o <- get ;; ret (_vga_gain o)
  else get_gain.

(** [set_gain(gain, name, chan)]: the setter of the named stage, the
    overall setter for any other name. *)
Definition set_gain_named (gain : double) (name : string) : M double :=
  if String.eqb "LNA" name then set_lna_gain gain
  else if String.eqb "MIX" name then set_mix_gain gain
  else if String.eqb "IF" name then set_if_gain gain
  else set_gain gain.

(** [get_sample_rates]: one range per entry of the rate list, in its
    order.  The one-argument [range_t(value)] of the ranges header
    starts and stops at the value, with step zero. *)
Definition get_sample_rates (o : airspy_source_c) : gain_range_t :=
  map (fun e => mk_range (fst e) (fst e) 0) (_sample_rates o).

End MoreMethods.

(** [airspy_close], the one library call of the destructor that the
    methods do not make. *)
Class AirspyClose {lib : AirspyLib} : Type := {
  airspy_close : airspy_device -> Z
}.

Inductive teardown_call : Type :=
| td_call (c : airspy_call)
| td_close.

(** How the destructor ends.  The destructor is not declared
    [noexcept(false)], so it is [noexcept]: a [runtime_error] thrown in
    it does not leave it, the program ends in [std::terminate] at the
    throw. *)
Inductive teardown_end : Type :=
| td_completed
| td_terminated (e : runtime_error).

Section Teardown.

Context {lib : AirspyLib} {closing : AirspyClose}.

(** What a run of the destructor comes to: how it ended, the handle
    ([None] once set to NULL), the FIFO ([None] once deleted) and the
    library calls made; after [td_terminated] the handle and the FIFO
    are as they stood when the program ended. *)
Record teardown : Type := mk_teardown {
  td_end : teardown_end;
  td_dev : option airspy_device;
  td_fifo : option CB.t;
  td_calls : list teardown_call
}.

(** [~airspy_source_c]: stop a streaming device, close the handle, then
    delete the FIFO; at either library failure [AIRSPY_THROW_ON_ERROR]
    throws, which ends the program on the spot. *)
Definition destructor (o : airspy_source_c) : teardown :=
  match _dev o with
  | Some d =>
      let '(r1, d1, t1) :=
        if airspy_is_streaming d =? AIRSPY_TRUE
        then let (r, d') := airspy_do airspy_stop_rx d in
             (r, d', [td_call airspy_stop_rx])
        else (AIRSPY_SUCCESS, d, []) in
      if negb (r1 =? AIRSPY_SUCCESS)
      then mk_teardown (td_terminated (airspy_func_failed "Failed to stop RX streaming" r1))
             (Some d1) (Some (_fifo o)) t1
      else
        let r2 := airspy_close d1 in
        if negb (r2 =? AIRSPY_SUCCESS)
        then mk_teardown (td_terminated (airspy_func_failed "Failed to close AirSpy" r2))
               (Some d1) (Some (_fifo o)) (t1 ++ [td_close])
        else mk_teardown td_completed None None (t1 ++ [td_close])
  | None => mk_teardown td_completed None None []
  end.

End Teardown.

#[local] Instance sim_close : AirspyClose := {|
  airspy_close := fun d => sim_code d
|}.

(** [run0] with the samples (1,0), ..., (k,0) buffered. *)
Definition run_with (k : nat) : airspy_source_c :=
  upd_fifo (CB.mk 10 (decode_iq (ramp k) k)) run0.

(** [open0] with a rate list in which 10 MS/s appears twice, under the
    indices 0 and 2. *)
Definition dup0 : airspy_source_c :=
  mk_block (Some (mk_sim false AIRSPY_SUCCESS))
    [(2500000%float, 1); (10000000%float, 0); (10000000%float, 2)]
    zero zero zero false linearity zero zero zero zero zero (CB.mk 10 []).

(** The device after a list of library calls, made in order. *)
Definition run_calls {lib : AirspyLib} (calls : list airspy_call) (d : airspy_device)
  : airspy_device :=
  fold_left (fun d c => snd (airspy_do c d)) calls d.

(** A second simulated device, which keeps its two AGC switches: it
    honours the AGC calls, refuses a manual LNA gain and accepts all
    else. *)
Record agc_device : Type := mk_agc { lna_agc_on : bool; mixer_agc_on : bool }.

Definition agc_do (c : airspy_call) (d : agc_device) : Z * agc_device :=
  match c with
  | airspy_set_lna_agc v => (AIRSPY_SUCCESS, mk_agc (negb (v =? 0)) (mixer_agc_on d))
  | airspy_set_mixer_agc v => (AIRSPY_SUCCESS, mk_agc (lna_agc_on d) (negb (v =? 0)))
  | airspy_set_lna_gain _ => (-5, d)
  | _ => (AIRSPY_SUCCESS, d)
  end.

Definition agc_lib : AirspyLib := {|
  airspy_device := agc_device;
  airspy_do := agc_do;
  airspy_is_streaming := fun _ => 0
|}.

(** A block in automatic mode on that device, both AGCs on. *)
Definition agc_block : @airspy_source_c agc_lib :=
  @mk_block agc_lib (Some (mk_agc true true)) sim_rates zero zero zero true linearity
    zero zero zero zero zero (CB.mk 10 []).

(** A method leaves the buffer alone, however it ends. *)
Definition keeps_fifo {lib : AirspyLib} {A} (m : M A) : Prop :=
  forall o, _fifo (snd (fst (m o))) = _fifo o.

(** * Properties *)

(** ** The FIFO *)

Section FifoFacts.

Context {lib : AirspyLib}.

Lemma size_nonneg (b : CB.t) : 0 <= CB.size b.
Proof. unfold CB.size. lia. Qed.

Lemma size_app (c : Z) (l1 l2 : list gr_complex) :
  CB.size (CB.mk c (l1 ++ l2)) = CB.size (CB.mk c l1) + Z.of_nat (length l2).
Proof. unfold CB.size; simpl. rewrite length_app. lia. Qed.

Lemma to_size_t_small (x : Z) : 0 <= x < 2 ^ 64 -> to_size_t x = x.
Proof. intros Hx. unfold to_size_t. apply Z.mod_small; exact Hx. Qed.

Lemma to_int_small (x : Z) : 0 <= x <= INT_MAX -> to_int x = x.
Proof.
  unfold to_int, INT_MAX. intros Hx.
  rewrite Z.mod_small; lia.
Qed.

Lemma decode_iq_length (n : nat) :
  forall raw, (2 * n <= length raw)%nat -> length (decode_iq raw n) = n.
Proof.
  induction n as [|n IH]; intros raw Hlen.
  - destruct raw; reflexivity.
  - destruct raw as [|i [|q rest]]; simpl in Hlen; try lia.
    simpl. rewrite IH; [reflexivity | lia].
Qed.

Lemma decode_iq_firstn (n : nat) :
  forall k raw, (n <= k)%nat -> (2 * k <= length raw)%nat ->
    firstn n (decode_iq raw k) = decode_iq raw n.
Proof.
  induction n as [|n IH]; intros k raw Hnk Hlen.
  - destruct raw; reflexivity.
  - destruct k as [|k]; [lia|].
    destruct raw as [|i [|q rest]]; simpl in Hlen; try lia.
    simpl. f_equal. apply IH; lia.
Qed.

(** While there is room, the copy loop appends the decoded pairs and
    never reaches the overwriting case of [push_back]. *)
Lemma push_samples_fits (n : nat) :
  forall sample fifo,
    (2 * n <= length sample)%nat ->
    CB.size fifo + Z.of_nat n <= CB.capacity fifo ->
    push_samples n sample fifo
    = Some (CB.mk (CB.capacity fifo) (CB.elems fifo ++ decode_iq sample n)).
Proof.
  induction n as [|n IH]; intros sample [c l] Hlen Hroom.
  - simpl. destruct sample; simpl; rewrite app_nil_r; reflexivity.
  - destruct sample as [|i [|q rest]]; simpl in Hlen; try lia.
    pose proof (size_nonneg (CB.mk c l)) as Hs.
    cbn [push_samples decode_iq]. unfold CB.push_back.
    cbn [CB.capacity CB.elems] in *.
    destruct (Z.eqb_spec c 0) as [E|_]; [lia|].
    destruct (Z.eqb_spec (CB.size (CB.mk c l)) c) as [E|_]; [lia|].
    rewrite IH.
    + cbn [CB.capacity CB.elems]. rewrite <- app_assoc. reflexivity.
    + lia.
    + rewrite size_app. cbn [CB.capacity length]. lia.
Qed.

Lemma drain_firstn (n : nat) :
  forall fifo, (n <= length (CB.elems fifo))%nat ->
    drain n fifo
    = Some (firstn n (CB.elems fifo),
            CB.mk (CB.capacity fifo) (skipn n (CB.elems fifo))).
Proof.
  induction n as [|n IH]; intros [c l] Hn.
  - reflexivity.
  - destruct l as [|x l]; simpl in Hn; [lia|].
    cbn [drain CB.at_ CB.elems nth_error CB.pop_front CB.capacity tl].
    rewrite IH by (simpl; lia). reflexivity.
Qed.

End FifoFacts.

Section CallbackFacts.

Context {lib : AirspyLib}.

Lemma push_samples_some (n : nat) :
  forall sample fifo f,
    push_samples n sample fifo = Some f ->
    CB.size fifo + Z.of_nat n <= CB.capacity fifo ->
    f = CB.mk (CB.capacity fifo) (CB.elems fifo ++ decode_iq sample n).
Proof.
  induction n as [|n IH]; intros sample [c l] f Hpush Hroom.
  - simpl in Hpush. injection Hpush as <-.
    destruct sample; simpl; rewrite app_nil_r; reflexivity.
  - destruct sample as [|i [|q rest]]; try discriminate.
    pose proof (size_nonneg (CB.mk c l)) as Hs.
    cbn [push_samples decode_iq] in *. unfold CB.push_back in Hpush.
    cbn [CB.capacity CB.elems] in *.
    destruct (Z.eqb_spec c 0) as [E|_]; [lia|].
    destruct (Z.eqb_spec (CB.size (CB.mk c l)) c) as [E|_]; [lia|].
    apply IH in Hpush.
    + rewrite Hpush. cbn [CB.capacity CB.elems]. rewrite <- app_assoc. reflexivity.
    + rewrite size_app. cbn [CB.capacity length]. lia.
Qed.

(** The callback takes [to_copy] as the smaller of the free room and
    the (wrapped) count, so it never asks for more than fits. *)
Lemma rx_callback_some (samples : list c_float) (sample_count : Z)
      (o o' : airspy_source_c) (r : callback_result) :
  fifo_ok o ->
  airspy_rx_callback samples sample_count o = Some (r, o') ->
  exists n : nat,
    Z.of_nat n <= CB.capacity (_fifo o) - CB.size (_fifo o) /\
    o' = upd_fifo (CB.mk (CB.capacity (_fifo o))
                         (CB.elems (_fifo o) ++ decode_iq samples n)) o.
Proof.
  intros [Hsz Hcap] Hcb. unfold airspy_rx_callback in Hcb.
  pose proof (size_nonneg (_fifo o)) as Hs.
  assert (Hav : to_size_t (CB.capacity (_fifo o) - CB.size (_fifo o))
                = CB.capacity (_fifo o) - CB.size (_fifo o)).
  { apply to_size_t_small. unfold INT_MAX in Hcap. lia. }
  rewrite Hav in Hcb.
  assert (Hns : 0 <= to_size_t sample_count).
  { unfold to_size_t. apply Z.mod_pos_bound. lia. }
  set (to_copy := if CB.capacity (_fifo o) - CB.size (_fifo o) <? to_size_t sample_count
                  then CB.capacity (_fifo o) - CB.size (_fifo o)
                  else to_size_t sample_count) in *.
  assert (Htc : 0 <= to_copy <= CB.capacity (_fifo o) - CB.size (_fifo o)).
  { unfold to_copy.
    destruct (Z.ltb_spec (CB.capacity (_fifo o) - CB.size (_fifo o))
                         (to_size_t sample_count)); lia. }
  destruct (push_samples (Z.to_nat to_copy) samples (_fifo o)) as [f|] eqn:Hpush;
    [|discriminate].
  injection Hcb as _ <-.
  apply push_samples_some in Hpush; [|lia].
  exists (Z.to_nat to_copy). split; [lia|]. rewrite Hpush. reflexivity.
Qed.

Lemma rx_callback_keeps (samples : list c_float) (sample_count : Z)
      (o o' : airspy_source_c) (r : callback_result) :
  fifo_ok o ->
  airspy_rx_callback samples sample_count o = Some (r, o') ->
  fifo_ok o' /\ _dev o' = _dev o /\
  CB.capacity (_fifo o') = CB.capacity (_fifo o) /\
  CB.size (_fifo o) <= CB.size (_fifo o').
Proof.
  intros Hok Hcb. destruct (rx_callback_some _ _ _ _ _ Hok Hcb) as (n & Hn & ->).
  destruct Hok as [Hsz Hcap].
  assert (Hlen : (length (decode_iq samples n) <= n)%nat).
  { clear. revert samples. induction n as [|n IH]; intros [|i [|q rest]]; simpl; try lia.
    specialize (IH rest). lia. }
  unfold fifo_ok. cbn [_fifo upd_fifo _dev CB.capacity].
  unfold CB.size in *. cbn [CB.elems]. rewrite length_app. repeat split; lia.
Qed.

(** On a well-formed transfer the callback is defined, and this is
    what it does. *)
Lemma rx_callback_exact (samples : list c_float) (k : Z) (o : airspy_source_c) :
  CB.size (_fifo o) <= CB.capacity (_fifo o) < 2 ^ 64 ->
  0 <= k <= INT_MAX ->
  Z.of_nat (length samples) = 2 * k ->
  let a := Z.min (CB.capacity (_fifo o) - CB.size (_fifo o)) k in
  airspy_rx_callback samples k o
  = Some (mk_callback_result 0 (negb (a =? 0))
            (if a <? k then "O"%string else ""%string),
          upd_fifo (CB.mk (CB.capacity (_fifo o))
                          (CB.elems (_fifo o) ++ decode_iq samples (Z.to_nat a))) o).
Proof.
  intros [Hsz Hcap] Hk Hlen a. unfold airspy_rx_callback.
  pose proof (size_nonneg (_fifo o)) as Hs. unfold INT_MAX in Hk.
  rewrite (to_size_t_small k) by lia.
  rewrite (to_size_t_small (CB.capacity (_fifo o) - CB.size (_fifo o))) by lia.
  assert (Ha : (if CB.capacity (_fifo o) - CB.size (_fifo o) <? k
                then CB.capacity (_fifo o) - CB.size (_fifo o) else k) = a).
  { unfold a. destruct (Z.ltb_spec (CB.capacity (_fifo o) - CB.size (_fifo o)) k); lia. }
  rewrite Ha.
  rewrite push_samples_fits; [reflexivity | lia | lia].
Qed.

End CallbackFacts.

Section C1.

Context {lib : AirspyLib}.

(** C1.  A callback delivering [k] samples to a buffer of capacity [C]
    that holds [s] samples takes exactly the first [min (C - s) k]
    samples of the transfer, in order, behind what was buffered, and
    drops the rest; it writes the overrun mark to [std::cerr] exactly
    when it took fewer than [k]; and the buffer never holds more than
    [C] afterwards. *)
Theorem rx_callback_accepts_prefix
        (samples : list c_float) (k : Z) (o : airspy_source_c) :
  CB.size (_fifo o) <= CB.capacity (_fifo o) < 2 ^ 64 ->
  0 <= k <= INT_MAX ->
  Z.of_nat (length samples) = 2 * k ->
  exists r o',
    airspy_rx_callback samples k o = Some (r, o') /\
    CB.elems (_fifo o')
    = CB.elems (_fifo o)
      ++ firstn (Z.to_nat (Z.min (CB.capacity (_fifo o) - CB.size (_fifo o)) k))
                (decode_iq samples (Z.to_nat k)) /\
    accepted o o' = Z.min (CB.capacity (_fifo o) - CB.size (_fifo o)) k /\
    (cb_cerr r = "O"%string
     <-> Z.min (CB.capacity (_fifo o) - CB.size (_fifo o)) k < k) /\
    CB.capacity (_fifo o') = CB.capacity (_fifo o) /\
    CB.size (_fifo o') <= CB.capacity (_fifo o).
Proof.
  intros Hinv Hk Hlen.
  pose proof (rx_callback_exact samples k o Hinv Hk Hlen) as Hcb.
  cbv zeta in Hcb.
  set (a := Z.min (CB.capacity (_fifo o) - CB.size (_fifo o)) k) in *.
  pose proof (size_nonneg (_fifo o)) as Hs.
  assert (Ha : 0 <= a <= k) by (unfold a; lia).
  assert (Hdec : length (decode_iq samples (Z.to_nat a)) = Z.to_nat a).
  { apply decode_iq_length. lia. }
  eexists _, _. split; [exact Hcb|].
  cbn [_fifo upd_fifo CB.elems CB.capacity cb_cerr].
  split; [|split; [|split; [|split]]].
  - rewrite decode_iq_firstn by lia. reflexivity.
  - unfold accepted, CB.size. cbn [_fifo upd_fifo CB.elems].
    rewrite length_app, Hdec. lia.
  - destruct (Z.ltb_spec a k); split; intros H'; try reflexivity; try lia.
    discriminate.
  - reflexivity.
  - unfold CB.size in *. cbn [CB.elems]. rewrite length_app, Hdec.
    unfold a. lia.
Qed.

End C1.

(** C1 on the design document's scenario: fifteen samples into an empty
    buffer of capacity ten. *)
Lemma rx_callback_accepts_prefix_witness :
  exists r o',
    airspy_rx_callback (ramp 15) 15 (sim_block None 10) = Some (r, o') /\
    CB.elems (_fifo o') = [] ++ firstn 10 (decode_iq (ramp 15) 15) /\
    accepted (sim_block None 10) o' = 10 /\
    (cb_cerr r = "O"%string <-> 10 < 15) /\
    CB.capacity (_fifo o') = 10 /\
    CB.size (_fifo o') <= 10.
Proof.
  apply (rx_callback_accepts_prefix (ramp 15) 15 (sim_block None 10)).
  - vm_compute. split; [discriminate | reflexivity].
  - vm_compute. split; discriminate.
  - reflexivity.
Defined.

(** ** The wait loop of [work] *)

Section WaitFacts.

Context {lib : AirspyLib}.

Lemma stop_keeps_fifo (o : airspy_source_c) :
  _fifo (snd (fst (stop o))) = _fifo o.
Proof.
  unfold stop, bind, get, call, ret. destruct (_dev o) as [d|] eqn:Hd; [|reflexivity].
  rewrite Hd. destruct (airspy_do airspy_stop_rx d) as [r d'].
  destruct (negb (r =? AIRSPY_SUCCESS)); reflexivity.
Qed.

Lemma stop_keeps_ok (o o' : airspy_source_c) (r : outcome bool) (t : list airspy_call) :
  stop o = (r, o', t) -> fifo_ok o -> fifo_ok o' /\ _fifo o' = _fifo o.
Proof.
  intros Hstop Hok. pose proof (stop_keeps_fifo o) as Hf.
  rewrite Hstop in Hf. simpl in Hf. unfold fifo_ok. rewrite Hf. split; [exact Hok | reflexivity].
Qed.

Lemma run_events_keeps (sched : list event) :
  forall o o', fifo_ok o -> run_events sched o = Some o' ->
    fifo_ok o' /\ CB.size (_fifo o) <= CB.size (_fifo o').
Proof.
  induction sched as [|ev rest IH]; intros o o' Hok Hrun.
  - injection Hrun as <-. split; [exact Hok | lia].
  - destruct ev as [samples c| |]; cbn [run_events] in Hrun.
    + destruct (airspy_rx_callback samples c o) as [[r o1]|] eqn:Hcb; [|discriminate].
      destruct (rx_callback_keeps _ _ _ _ _ Hok Hcb) as (Hok1 & _ & _ & Hle).
      destruct (IH _ _ Hok1 Hrun) as [Hok' Hle']. split; [exact Hok' | lia].
    + destruct (stop o) as [[r o1] t] eqn:Hstop.
      destruct (stop_keeps_ok _ _ _ _ Hstop Hok) as [Hok1 Hf].
      destruct (IH _ _ Hok1 Hrun) as [Hok' Hle']. rewrite Hf in Hle'. split; assumption.
    + apply IH; assumption.
Qed.

(** The loop is left only at a moment when enough samples are buffered. *)
Lemma wait_ready (n : Z) (sched : list event) :
  forall checking o o1,
    fifo_ok o ->
    wait_for_samples n sched checking o = Ready o1 ->
    exists pre post,
      sched = pre ++ post /\ run_events pre o = Some o1 /\
      n <= CB.size (_fifo o1) /\ fifo_ok o1.
Proof.
  induction sched as [|ev rest IH]; intros checking o o1 Hok Hwait.
  - cbn [wait_for_samples] in Hwait.
    destruct (checking && negb (to_int (CB.size (_fifo o)) <? n)) eqn:Hchk; [|discriminate].
    injection Hwait as <-. exists [], []. repeat split; try exact Hok; try apply Hok.
    apply andb_prop in Hchk. destruct Hchk as [_ Hchk].
    rewrite to_int_small in Hchk by (pose proof (size_nonneg (_fifo o)); unfold fifo_ok in Hok; lia).
    apply negb_true_iff, Z.ltb_ge in Hchk. exact Hchk.
  - cbn [wait_for_samples] in Hwait.
    destruct (checking && negb (to_int (CB.size (_fifo o)) <? n)) eqn:Hchk.
    + injection Hwait as <-. exists [], (ev :: rest). repeat split; try apply Hok.
      apply andb_prop in Hchk. destruct Hchk as [_ Hchk].
      rewrite to_int_small in Hchk by (pose proof (size_nonneg (_fifo o)); unfold fifo_ok in Hok; lia).
      apply negb_true_iff, Z.ltb_ge in Hchk. exact Hchk.
    + destruct ev as [samples c| |].
      * destruct (airspy_rx_callback samples c o) as [[r o2]|] eqn:Hcb; [|discriminate].
        destruct (rx_callback_keeps _ _ _ _ _ Hok Hcb) as (Hok2 & _).
        destruct (IH _ _ _ Hok2 Hwait) as (pre & post & -> & Hrun & Hn & Hok1).
        exists (EvCallback samples c :: pre), post. cbn [run_events app]. rewrite Hcb.
        repeat split; try assumption; apply Hok1.
      * destruct (stop o) as [[r o2] t] eqn:Hstop.
        destruct (stop_keeps_ok _ _ _ _ Hstop Hok) as [Hok2 _].
        destruct (IH _ _ _ Hok2 Hwait) as (pre & post & -> & Hrun & Hn & Hok1).
        exists (EvStop :: pre), post. cbn [run_events app]. rewrite Hstop.
        repeat split; try assumption; apply Hok1.
      * destruct (IH _ _ _ Hok Hwait) as (pre & post & -> & Hrun & Hn & Hok1).
        exists (EvWake :: pre), post. cbn [run_events app].
        repeat split; try assumption; apply Hok1.
Qed.

(** While fewer than [n] samples are buffered at every moment of the
    schedule, the consumer is still in the loop when the schedule ends. *)
Lemma wait_blocked (n : Z) (sched : list event) :
  forall checking o o2,
    fifo_ok o ->
    (forall pre post o1, sched = pre ++ post -> run_events pre o = Some o1 ->
                         CB.size (_fifo o1) < n) ->
    run_events sched o = Some o2 ->
    wait_for_samples n sched checking o = StillWaiting o2.
Proof.
  induction sched as [|ev rest IH]; intros checking o o2 Hok Hlow Hrun.
  - cbn [wait_for_samples]. injection Hrun as <-.
    specialize (Hlow [] [] o eq_refl eq_refl).
    rewrite to_int_small by (pose proof (size_nonneg (_fifo o)); unfold fifo_ok in Hok; lia).
    apply Z.ltb_lt in Hlow. rewrite Hlow, andb_false_r. reflexivity.
  - cbn [wait_for_samples].
    pose proof (Hlow [] (ev :: rest) o eq_refl eq_refl) as Hnow.
    rewrite to_int_small by (pose proof (size_nonneg (_fifo o)); unfold fifo_ok in Hok; lia).
    apply Z.ltb_lt in Hnow. rewrite Hnow, andb_false_r.
    destruct ev as [samples c| |]; cbn [run_events] in Hrun.
    + destruct (airspy_rx_callback samples c o) as [[r o3]|] eqn:Hcb; [|discriminate].
      destruct (rx_callback_keeps _ _ _ _ _ Hok Hcb) as (Hok3 & _).
      apply IH; try assumption.
      intros pre post o1 -> Hpre.
      apply (Hlow (EvCallback samples c :: pre) post o1 eq_refl).
      cbn [run_events]. rewrite Hcb. exact Hpre.
    + destruct (stop o) as [[r o3] t] eqn:Hstop.
      destruct (stop_keeps_ok _ _ _ _ Hstop Hok) as [Hok3 _].
      apply IH; try assumption.
      intros pre post o1 -> Hpre.
      apply (Hlow (EvStop :: pre) post o1 eq_refl).
      cbn [run_events]. rewrite Hstop. exact Hpre.
    + apply IH; try assumption.
      intros pre post o1 -> Hpre.
      apply (Hlow (EvWake :: pre) post o1 eq_refl). exact Hpre.
Qed.

(** A wake-up at a moment when [n] samples are buffered ends the wait,
    if the wait has not ended before. *)
Lemma wait_live (n : Z) (pre : list event) :
  forall post checking o o1,
    fifo_ok o ->
    run_events pre o = Some o1 ->
    n <= CB.size (_fifo o1) ->
    exists o2, wait_for_samples n (pre ++ EvWake :: post) checking o = Ready o2.
Proof.
  induction pre as [|ev rest IH]; intros post checking o o1 Hok Hrun Hn.
  - injection Hrun as <-. cbn [app wait_for_samples].
    assert (Hchk : negb (to_int (CB.size (_fifo o)) <? n) = true).
    { rewrite to_int_small by (pose proof (size_nonneg (_fifo o)); unfold fifo_ok in Hok; lia).
      apply negb_true_iff, Z.ltb_ge. exact Hn. }
    rewrite Hchk. destruct checking; cbn [andb].
    + exists o. reflexivity.
    + exists o. destruct post; cbn [wait_for_samples]; rewrite Hchk; reflexivity.
  - cbn [app wait_for_samples].
    destruct (checking && negb (to_int (CB.size (_fifo o)) <? n)); [exists o; reflexivity|].
    destruct ev as [samples c| |]; cbn [run_events] in Hrun.
    + destruct (airspy_rx_callback samples c o) as [[r o3]|] eqn:Hcb; [|discriminate].
      destruct (rx_callback_keeps _ _ _ _ _ Hok Hcb) as (Hok3 & _).
      apply (IH post false o3 o1); assumption.
    + destruct (stop o) as [[r o3] t] eqn:Hstop.
      destruct (stop_keeps_ok _ _ _ _ Hstop Hok) as [Hok3 _].
      apply (IH post false o3 o1); assumption.
    + apply (IH post true o o1); assumption.
Qed.

Lemma work_running (n : Z) (sched : list event) (o : airspy_source_c) :
  streaming o ->
  work n sched o
  = match wait_for_samples n sched true o with
    | Ready o' =>
        match drain (Z.to_nat n) (_fifo o') with
        | Some (out, fifo) => WorkReturned n out (upd_fifo fifo o')
        | None => WorkOutOfRange o'
        end
    | StillWaiting o' => WorkBlocked o'
    | WaitUndefined => WorkUndefined
    end.
Proof.
  intros (d & Hd & Hs). unfold work. rewrite Hd, Hs. reflexivity.
Qed.

End WaitFacts.

Section StreamingClaims.

Context {lib : AirspyLib}.

Lemma upd_fifo_twice (f g : CB.t) (o : airspy_source_c) :
  upd_fifo f (upd_fifo g o) = upd_fifo f o.
Proof. reflexivity. Qed.

Lemma decode_all_length (batches : list (list c_float * Z)) :
  Forall well_formed batches ->
  Z.of_nat (length (decode_all batches)) = total_count batches.
Proof.
  induction 1 as [|[raw k] rest [Hk Hlen] _ IH]; [reflexivity|].
  cbn [decode_all flat_map total_count fold_right fst snd] in *.
  rewrite length_app, decode_iq_length by lia.
  fold (decode_all rest). fold (total_count rest). lia.
Qed.

Lemma total_count_nonneg (batches : list (list c_float * Z)) :
  Forall well_formed batches -> 0 <= total_count batches.
Proof.
  induction 1 as [|[raw k] rest [Hk Hlen] _ IH]; [reflexivity|].
  cbn [total_count fold_right fst snd] in *. fold (total_count rest). lia.
Qed.

(** A run of callbacks that fits appends every transfer, decoded, in
    the order of the calls. *)
Lemma run_callbacks_fit (batches : list (list c_float * Z)) :
  forall o,
    Forall well_formed batches ->
    CB.size (_fifo o) + total_count batches <= CB.capacity (_fifo o) ->
    CB.capacity (_fifo o) <= INT_MAX ->
    run_events (callbacks batches) o
    = Some (upd_fifo (CB.mk (CB.capacity (_fifo o))
                            (CB.elems (_fifo o) ++ decode_all batches)) o).
Proof.
  induction batches as [|[raw k] rest IH]; intros o Hwf Hfit Hcap.
  - cbn. rewrite app_nil_r. destruct o as [? ? ? ? ? ? ? ? ? ? ? ? [c l]]. reflexivity.
  - inversion Hwf as [|? ? [Hk Hlen] Hrest]; subst.
    pose proof (total_count_nonneg rest Hrest) as Hpos.
    pose proof (size_nonneg (_fifo o)) as Hs.
    cbn [total_count fold_right fst snd] in Hfit. fold (total_count rest) in Hfit.
    cbn [fst snd] in Hk, Hlen.
    cbn [callbacks map run_events fst snd].
    rewrite rx_callback_exact by (unfold INT_MAX in *; lia).
    replace (Z.min (CB.capacity (_fifo o) - CB.size (_fifo o)) k) with k by lia.
    fold (callbacks rest). rewrite IH.
    + cbn [_fifo upd_fifo CB.capacity CB.elems decode_all flat_map fst snd].
      fold (decode_all rest). rewrite upd_fifo_twice, <- app_assoc. reflexivity.
    + exact Hrest.
    + cbn [_fifo upd_fifo CB.capacity]. rewrite size_app.
      rewrite decode_iq_length by lia. unfold CB.size in *. cbn [CB.elems]. lia.
    + exact Hcap.
Qed.

(** C2.  Callbacks delivering, in all, no more samples than the capacity
    of an empty buffer are all defined, and a [work] for that total then
    returns at once with every delivered sample, each the pair of two
    consecutive floats of its transfer, in the order delivered, and
    leaves the buffer empty. *)
Theorem work_returns_pushed_in_order
        (batches : list (list c_float * Z)) (C : Z) (sched : list event)
        (o : airspy_source_c) :
  streaming o ->
  _fifo o = CB.mk C [] ->
  Forall well_formed batches ->
  total_count batches <= C <= INT_MAX ->
  exists o1,
    run_events (callbacks batches) o = Some o1 /\
    work (total_count batches) sched o1
    = WorkReturned (total_count batches) (decode_all batches)
                   (upd_fifo (CB.mk C []) o1).
Proof.
  intros Hstr Hempty Hwf [Htot Hcap].
  pose proof (decode_all_length batches Hwf) as Hlen.
  eexists. split.
  - apply run_callbacks_fit; rewrite ?Hempty; cbn; try assumption; lia.
  - rewrite Hempty. cbn [CB.capacity CB.elems app].
    rewrite work_running
      by (destruct Hstr as (d & Hd & Hs); exists d; split; assumption).
    assert (Hchk : wait_for_samples (total_count batches) sched true
                     (upd_fifo (CB.mk C (decode_all batches)) o)
                   = Ready (upd_fifo (CB.mk C (decode_all batches)) o)).
    { destruct sched; cbn [wait_for_samples _fifo upd_fifo];
        unfold CB.size; cbn [CB.elems]; rewrite Hlen;
        rewrite to_int_small by (pose proof (total_count_nonneg _ Hwf); lia);
        rewrite Z.ltb_irrefl; reflexivity. }
    rewrite Hchk. cbn [_fifo upd_fifo].
    rewrite drain_firstn by (cbn [CB.elems]; lia).
    cbn [CB.elems CB.capacity].
    replace (Z.to_nat (total_count batches)) with (length (decode_all batches)) by lia.
    rewrite firstn_all, skipn_all. reflexivity.
Qed.

(** C3.  [work] for [n] samples on a streaming session (a) returns only
    at a moment when at least [n] samples are buffered, and then hands
    out the first [n] of them in order and leaves the others, in order,
    behind; (b) is still blocked at the end of a schedule throughout
    which fewer than [n] are buffered; (c) does return once the consumer
    is woken at a moment when [n] are buffered. *)
Theorem work_blocks_then_pops (n : Z) (sched : list event) (o : airspy_source_c) :
  streaming o ->
  fifo_ok o ->
  0 <= n <= CB.capacity (_fifo o) ->
  (forall r out o',
      work n sched o = WorkReturned r out o' ->
      exists pre post o1,
        sched = pre ++ post /\ run_events pre o = Some o1 /\
        n <= CB.size (_fifo o1) /\
        r = n /\
        out = firstn (Z.to_nat n) (CB.elems (_fifo o1)) /\
        CB.elems (_fifo o') = skipn (Z.to_nat n) (CB.elems (_fifo o1)) /\
        CB.size (_fifo o') = CB.size (_fifo o1) - n) /\
  (forall o2,
      run_events sched o = Some o2 ->
      (forall pre post o1, sched = pre ++ post -> run_events pre o = Some o1 ->
                           CB.size (_fifo o1) < n) ->
      work n sched o = WorkBlocked o2) /\
  (forall pre post o1,
      sched = pre ++ EvWake :: post ->
      run_events pre o = Some o1 ->
      n <= CB.size (_fifo o1) ->
      exists out o', work n sched o = WorkReturned n out o').
Proof.
  intros Hstr Hok Hn. rewrite (work_running n sched o Hstr).
  split; [|split].
  - intros r out o' Hwork.
    destruct (wait_for_samples n sched true o) as [o1| |] eqn:Hwait; try discriminate.
    destruct (wait_ready _ _ _ _ _ Hok Hwait) as (pre & post & Hsched & Hrun & Hsize & Hok1).
    assert (Hlen : (Z.to_nat n <= length (CB.elems (_fifo o1)))%nat)
      by (unfold CB.size in Hsize; lia).
    rewrite (drain_firstn _ _ Hlen) in Hwork. injection Hwork as <- <- <-.
    exists pre, post, o1. cbn [_fifo upd_fifo CB.elems].
    repeat split; try assumption.
    unfold CB.size. cbn [CB.elems]. rewrite length_skipn. lia.
  - intros o2 Hrun Hlow. rewrite (wait_blocked n sched true o o2 Hok Hlow Hrun). reflexivity.
  - intros pre post o1 -> Hrun Hsize.
    destruct (wait_live n pre post true o o1 Hok Hrun Hsize) as [o2 Hwait].
    rewrite Hwait.
    destruct (wait_ready _ _ _ _ _ Hok Hwait) as (_ & _ & _ & _ & Hsize2 & _).
    rewrite drain_firstn by (unfold CB.size in Hsize2; lia).
    eexists _, _. reflexivity.
Qed.

Lemma run_events_no_callback (sched : list event) :
  forall o, no_callback sched = true ->
    exists o2, run_events sched o = Some o2 /\ _fifo o2 = _fifo o.
Proof.
  induction sched as [|ev rest IH]; intros o Hnc.
  - exists o. split; reflexivity.
  - destruct ev as [samples c| |]; cbn [no_callback forallb andb] in Hnc; try discriminate.
    + cbn [run_events]. destruct (stop o) as [[r o1] t] eqn:Hstop.
      destruct (IH o1 Hnc) as (o2 & Hrun & Hf). exists o2. split; [exact Hrun|].
      rewrite Hf. pose proof (stop_keeps_fifo o) as Hk. rewrite Hstop in Hk. exact Hk.
    + cbn [run_events]. apply IH. exact Hnc.
Qed.

Lemma no_callback_prefix (pre post : list event) :
  no_callback (pre ++ post) = true -> no_callback pre = true.
Proof.
  unfold no_callback. rewrite forallb_app. intros H. apply andb_prop in H. apply H.
Qed.

(** With fewer than [n] samples buffered and nothing delivered, a
    consumer past the entry of [work] stays in the loop, whatever else
    (a [stop], wake-ups) happens. *)
Lemma blocked_without_callbacks (n : Z) (sched : list event) (o : airspy_source_c) :
  streaming o -> fifo_ok o -> CB.size (_fifo o) < n -> no_callback sched = true ->
  exists o2, work n sched o = WorkBlocked o2 /\ _fifo o2 = _fifo o /\
             run_events sched o = Some o2.
Proof.
  intros Hstr Hok Hlow Hnc.
  destruct (run_events_no_callback sched o Hnc) as (o2 & Hrun & Hf).
  exists o2. split; [|split; assumption].
  rewrite (work_running n sched o Hstr).
  rewrite (wait_blocked n sched true o o2 Hok); [reflexivity| |exact Hrun].
  intros pre post o1 -> Hpre.
  destruct (run_events_no_callback pre o (no_callback_prefix _ _ Hnc)) as (o3 & Hrun3 & Hf3).
  rewrite Hrun3 in Hpre. injection Hpre as <-. rewrite Hf3. exact Hlow.
Qed.

Lemma work_not_running (n : Z) (sched : list event) (o : airspy_source_c) :
  (forall d, _dev o = Some d -> airspy_is_streaming d <> AIRSPY_TRUE) ->
  work n sched o = WorkReturned WORK_DONE [] o.
Proof.
  intros Hnot. unfold work. destruct (_dev o) as [d|]; [|reflexivity].
  destruct (Z.eqb_spec (airspy_is_streaming d) AIRSPY_TRUE) as [E|_]; [|reflexivity].
  exfalso. exact (Hnot d eq_refl E).
Qed.

(** C4, as the code has it.  Whether the session is streaming is asked
    once, on entry to [work]: given a device that no longer reports
    streaming after a successful [airspy_stop_rx], a [work] entered
    after [stop] has returned true returns [WORK_DONE] at once.  The wait
    loop looks at the fill level alone: a consumer already waiting for
    [n] samples with fewer buffered stays blocked through [stop] and any
    wake-ups, as long as no callback delivers samples. *)
Theorem work_checks_session_on_entry_only
        (n : Z) (sched : list event) (o : airspy_source_c) :
  (forall d d', airspy_do airspy_stop_rx d = (AIRSPY_SUCCESS, d') ->
                airspy_is_streaming d' <> AIRSPY_TRUE) ->
  (forall o' t, stop o = (Returns true, o', t) ->
                work n sched o' = WorkReturned WORK_DONE [] o') /\
  (streaming o -> fifo_ok o -> CB.size (_fifo o) < n -> no_callback sched = true ->
   exists o2, work n sched o = WorkBlocked o2 /\ _fifo o2 = _fifo o /\
              run_events sched o = Some o2).
Proof.
  intros Hlaw. split.
  - intros o' t Hstop. apply work_not_running. intros d' Hd'.
    unfold stop, bind, get, call, ret in Hstop.
    destruct (_dev o) as [d|] eqn:Hd; [|discriminate].
    rewrite Hd in Hstop.
    destruct (airspy_do airspy_stop_rx d) as [r d1] eqn:Hdo.
    destruct (Z.eqb_spec r AIRSPY_SUCCESS) as [->|_]; cbn in Hstop; [|discriminate].
    injection Hstop as <- _. cbn in Hd'. injection Hd' as <-.
    exact (Hlaw d d1 Hdo).
  - apply blocked_without_callbacks.
Qed.

(** C5.  When the handle is null, or the device behind it does not
    answer that it is streaming, [work] returns [WORK_DONE], has stored
    no sample, and leaves the object, buffer included, as it was. *)
Theorem work_done_when_not_streaming (n : Z) (sched : list event) (o : airspy_source_c) :
  (forall d, _dev o = Some d -> airspy_is_streaming d <> AIRSPY_TRUE) ->
  work n sched o = WorkReturned WORK_DONE [] o.
Proof.
  intros Hnot. unfold work.
  destruct (_dev o) as [d|]; [|reflexivity].
  specialize (Hnot d eq_refl). apply Z.eqb_neq in Hnot. rewrite Hnot. reflexivity.
Qed.

End StreamingClaims.

(** ** The control surface *)

Section ControlClaims.

Context {lib : AirspyLib} {ranges : MetaRange}.
Local Open Scope block_scope.

Lemma find_rate_none (rate : double) (rates : list (double * Z)) :
  forall found index,
    existsb (rate_matches rate) rates = false ->
    find_rate rates rate found index = (found, index).
Proof.
  induction rates as [|[first second] rest IH]; intros found index Hnone; [reflexivity|].
  cbn [existsb] in Hnone. apply orb_false_elim in Hnone. destruct Hnone as [Hhd Hrest].
  unfold rate_matches in Hhd. cbn [fst] in Hhd.
  cbn [find_rate]. rewrite Hhd. apply IH. exact Hrest.
Qed.

Lemma find_rate_some (rate : double) (rates : list (double * Z)) :
  forall found index,
    existsb (rate_matches rate) rates = true ->
    exists first second,
      In (first, second) rates /\ PrimFloat.eqb first rate = true /\
      find_rate rates rate found index = (true, second).
Proof.
  induction rates as [|[first second] rest IH]; intros found index Hsome; [discriminate|].
  cbn [find_rate].
  destruct (existsb (rate_matches rate) rest) eqn:Hrest.
  - destruct (PrimFloat.eqb first rate).
    + destruct (IH true second eq_refl) as (f & s & Hin & Heq & Hfind).
      exists f, s. repeat split; [right; exact Hin | exact Heq | exact Hfind].
    + destruct (IH found index eq_refl) as (f & s & Hin & Heq & Hfind).
      exists f, s. repeat split; [right; exact Hin | exact Heq | exact Hfind].
  - cbn [existsb] in Hsome. rewrite Hrest, orb_false_r in Hsome.
    unfold rate_matches in Hsome. cbn [fst] in Hsome. rewrite Hsome.
    exists first, second. repeat split; [left; reflexivity | exact Hsome |].
    apply find_rate_none. exact Hrest.
Qed.

(** C6.  On an open device: a rate that the search loop finds equal to
    no entry of the rate list makes [set_sample_rate] throw "Unsupported
    samplerate" with no device call made and the object, cached rate
    included, untouched; a rate equal to an entry makes it send
    [airspy_set_samplerate] with the index stored with a matching entry,
    and once the device accepts, cache and return that rate. *)
Theorem set_sample_rate_exact_match (rate : double) (o : airspy_source_c)
        (d : airspy_device) :
  _dev o = Some d ->
  (existsb (rate_matches rate) (_sample_rates o) = false ->
   set_sample_rate rate o = (Throws (Unsupported_samplerate rate), o, [])) /\
  (existsb (rate_matches rate) (_sample_rates o) = true ->
   exists first index,
     In (first, index) (_sample_rates o) /\ PrimFloat.eqb first rate = true /\
     calls_made (set_sample_rate rate) o = [airspy_set_samplerate index] /\
     forall d', airspy_do (airspy_set_samplerate index) d = (AIRSPY_SUCCESS, d') ->
       set_sample_rate rate o
       = (Returns rate, upd_sample_rate rate (upd_dev (Some d') o),
          [airspy_set_samplerate index])).
Proof.
  intros Hd. split; intros Hex.
  - unfold set_sample_rate, bind, get. rewrite Hd.
    rewrite (find_rate_none _ _ false 0 Hex). reflexivity.
  - destruct (find_rate_some _ _ false 0 Hex) as (first & index & Hin & Heq & Hfind).
    exists first, index. split; [exact Hin|]. split; [exact Heq|].
    unfold calls_made, set_sample_rate, bind, get, call, modify, get_sample_rate, ret.
    rewrite Hd, Hfind. cbn [negb]. rewrite Hd.
    split.
    + destruct (airspy_do (airspy_set_samplerate index) d) as [r d1].
      unfold AIRSPY_THROW_ON_ERROR, throw, ret.
      destruct (Z.eqb_spec AIRSPY_SUCCESS r) as [<-|Hr].
      * reflexivity.
      * destruct (Z.eqb_spec r AIRSPY_SUCCESS); [congruence|]. reflexivity.
    + intros d' Hdo. rewrite Hdo. reflexivity.
Qed.

Lemma set_center_freq_open (freq : double) (o : airspy_source_c)
      (d : airspy_device) (hz : Z) :
  _dev o = Some d ->
  double_to_unsigned 64 (APPLY_PPM_CORR freq (_freq_corr o)) = Some hz ->
  set_center_freq freq o
  = let (r, d') := airspy_do (airspy_set_freq hz) d in
    if AIRSPY_SUCCESS =? r
    then (Returns freq, upd_center_freq freq (upd_dev (Some d') o), [airspy_set_freq hz])
    else (Throws (airspy_func_failed (AIRSPY_FUNC_STR "airspy_set_freq") r),
          upd_dev (Some d') o, [airspy_set_freq hz]).
Proof.
  intros Hd Hhz.
  unfold set_center_freq, bind, get, call, modify, get_center_freq, ret.
  rewrite Hd, Hhz, Hd.
  destruct (airspy_do (airspy_set_freq hz) d) as [r d'].
  unfold AIRSPY_THROW_ON_ERROR, throw, ret.
  destruct (Z.eqb_spec AIRSPY_SUCCESS r) as [<-|Hr]; [reflexivity|].
  destruct (Z.eqb_spec r AIRSPY_SUCCESS); [congruence|]. reflexivity.
Qed.

Lemma set_freq_corr_unfold (ppm : double) (o : airspy_source_c) :
  set_freq_corr ppm o
  = match set_center_freq (_center_freq o) (upd_freq_corr ppm o) with
    | (Returns _, o1, t) => (Returns (_freq_corr o1), o1, t)
    | (Throws e, o1, t) => (Throws e, o1, t)
    | (Undefined, o1, t) => (Undefined, o1, t)
    end.
Proof.
  unfold set_freq_corr, get_freq_corr. unfold bind, modify, get, ret.
  cbn [_center_freq upd_freq_corr].
  destruct (set_center_freq (_center_freq o) (upd_freq_corr ppm o)) as [[[x|e|] o1] t];
    cbn [app]; rewrite ?app_nil_r; reflexivity.
Qed.

(** C7.  On an open device, with both corrected frequencies inside
    [uint64_t]: [set_freq_corr p] stores [p] and sends [airspy_set_freq]
    for the cached centre frequency times (1 + p * 1e-6); a following
    [set_center_freq f] sends [airspy_set_freq] for f times
    (1 + p * 1e-6), the product taken in double arithmetic and cut to an
    integer, and, the device accepting, returns [f] and leaves
    [get_center_freq] reporting the uncorrected [f]. *)
Theorem freq_corr_applies_to_center_freq
        (p f : double) (o : airspy_source_c) (d : airspy_device) (hz0 hz : Z) :
  _dev o = Some d ->
  double_to_unsigned 64 (APPLY_PPM_CORR (_center_freq o) p) = Some hz0 ->
  double_to_unsigned 64 (APPLY_PPM_CORR f p) = Some hz ->
  calls_made (set_freq_corr p) o = [airspy_set_freq hz0] /\
  _freq_corr (state_after (set_freq_corr p) o) = p /\
  exists d1,
    _dev (state_after (set_freq_corr p) o) = Some d1 /\
    calls_made (set_center_freq f) (state_after (set_freq_corr p) o)
    = [airspy_set_freq hz] /\
    (fst (airspy_do (airspy_set_freq hz) d1) = AIRSPY_SUCCESS ->
     result_of (set_center_freq f) (state_after (set_freq_corr p) o) = Returns f /\
     result_of get_center_freq
               (state_after (set_center_freq f) (state_after (set_freq_corr p) o))
     = Returns f).
Proof.
  intros Hd Hhz0 Hhz.
  pose proof (set_center_freq_open (_center_freq o) (upd_freq_corr p o) d hz0 Hd Hhz0) as H0.
  unfold calls_made, state_after, result_of.
  rewrite (set_freq_corr_unfold p o), H0.
  destruct (airspy_do (airspy_set_freq hz0) d) as [r0 d0].
  assert (Hopen : forall o1, _dev o1 = Some d0 -> _freq_corr o1 = p ->
            snd (set_center_freq f o1) = [airspy_set_freq hz] /\
            (fst (airspy_do (airspy_set_freq hz) d0) = AIRSPY_SUCCESS ->
             fst (fst (set_center_freq f o1)) = Returns f /\
             fst (fst (get_center_freq (snd (fst (set_center_freq f o1))))) = Returns f)).
  { intros o1 Hd1 Hp.
    assert (Hhz1 : double_to_unsigned 64 (APPLY_PPM_CORR f (_freq_corr o1)) = Some hz)
      by (rewrite Hp; exact Hhz).
    rewrite (set_center_freq_open f o1 d0 hz Hd1 Hhz1).
    destruct (airspy_do (airspy_set_freq hz) d0) as [r1 d1]. cbn [fst].
    split.
    - destruct (AIRSPY_SUCCESS =? r1); reflexivity.
    - intros ->. cbn. split; reflexivity. }
  destruct (AIRSPY_SUCCESS =? r0); cbn [fst snd get_freq_corr bind get ret app].
  - split; [reflexivity|]. split; [reflexivity|].
    exists d0. split; [reflexivity|]. apply Hopen; reflexivity.
  - split; [reflexivity|]. split; [reflexivity|].
    exists d0. split; [reflexivity|]. apply Hopen; reflexivity.
Qed.

(** Running a method step by step. *)
Lemma runs_bind {A B} (m : M A) (k : A -> M B) (o o1 o2 : airspy_source_c)
      (a : A) (r : outcome B) (t1 t2 : list airspy_call) :
  m o = (Returns a, o1, t1) -> k a o1 = (r, o2, t2) ->
  bind m k o = (r, o2, t1 ++ t2).
Proof. intros Hm Hk. unfold bind. rewrite Hm, Hk. reflexivity. Qed.

Lemma runs_bind_throws {A B} (m : M A) (k : A -> M B) (o o1 : airspy_source_c)
      (e : runtime_error) (t1 : list airspy_call) :
  m o = (Throws e, o1, t1) -> bind m k o = (Throws e, o1, t1).
Proof. intros Hm. unfold bind. rewrite Hm. reflexivity. Qed.

Lemma call_open (c : airspy_call) (o : airspy_source_c) (d : airspy_device) :
  _dev o = Some d ->
  call c o = (Returns (fst (airspy_do c d)), upd_dev (Some (snd (airspy_do c d))) o, [c]).
Proof. intros Hd. unfold call. rewrite Hd. destruct (airspy_do c d). reflexivity. Qed.

Lemma set_stage_gain_open (gains : gain_range_t) (gain : double) (cmd : Z -> airspy_call)
      (func : string) (store : double -> airspy_source_c -> airspy_source_c)
      (o : airspy_source_c) (d : airspy_device) (value : Z) :
  _dev o = Some d ->
  double_to_unsigned 8 (clip gains gain true) = Some value ->
  set_stage_gain gains gain cmd func store o
  = if AIRSPY_SUCCESS =? fst (airspy_do (cmd value) d)
    then (Returns tt,
          store (clip gains gain true) (upd_dev (Some (snd (airspy_do (cmd value) d))) o),
          [cmd value])
    else (Throws (airspy_func_failed (AIRSPY_FUNC_STR func) (fst (airspy_do (cmd value) d))),
          upd_dev (Some (snd (airspy_do (cmd value) d))) o, [cmd value]).
Proof.
  intros Hd Hv. unfold set_stage_gain. rewrite Hv.
  unfold bind. rewrite (call_open _ _ _ Hd).
  unfold AIRSPY_THROW_ON_ERROR, modify, throw, ret.
  destruct (Z.eqb_spec AIRSPY_SUCCESS (fst (airspy_do (cmd value) d))) as [E|E].
  - reflexivity.
  - destruct (Z.eqb_spec (fst (airspy_do (cmd value) d)) AIRSPY_SUCCESS); [congruence|].
    reflexivity.
Qed.

Lemma set_lna_gain_open (gain : double) (o : airspy_source_c) (d : airspy_device) (value : Z) :
  _dev o = Some d ->
  double_to_unsigned 8 (clip (get_gain_range_named "LNA") gain true) = Some value ->
  set_lna_gain gain o
  = if AIRSPY_SUCCESS =? fst (airspy_do (airspy_set_lna_gain value) d)
    then (Returns (clip (get_gain_range_named "LNA") gain true),
          upd_lna_gain (clip (get_gain_range_named "LNA") gain true)
            (upd_dev (Some (snd (airspy_do (airspy_set_lna_gain value) d))) o),
          [airspy_set_lna_gain value])
    else (Throws (airspy_func_failed (AIRSPY_FUNC_STR "airspy_set_lna_gain")
                    (fst (airspy_do (airspy_set_lna_gain value) d))),
          upd_dev (Some (snd (airspy_do (airspy_set_lna_gain value) d))) o,
          [airspy_set_lna_gain value]).
Proof.
  intros Hd Hv. unfold set_lna_gain. unfold bind at 1 2. unfold get at 1. rewrite Hd.
  rewrite (set_stage_gain_open _ _ _ _ _ _ _ _ Hd Hv).
  destruct (AIRSPY_SUCCESS =? fst (airspy_do (airspy_set_lna_gain value) d)); reflexivity.
Qed.

Lemma set_mix_gain_open (gain : double) (o : airspy_source_c) (d : airspy_device) (value : Z) :
  _dev o = Some d ->
  double_to_unsigned 8 (clip (get_gain_range_named "MIX") gain true) = Some value ->
  set_mix_gain gain o
  = if AIRSPY_SUCCESS =? fst (airspy_do (airspy_set_mixer_gain value) d)
    then (Returns (clip (get_gain_range_named "MIX") gain true),
          upd_mix_gain (clip (get_gain_range_named "MIX") gain true)
            (upd_dev (Some (snd (airspy_do (airspy_set_mixer_gain value) d))) o),
          [airspy_set_mixer_gain value])
    else (Throws (airspy_func_failed (AIRSPY_FUNC_STR "airspy_set_mixer_gain")
                    (fst (airspy_do (airspy_set_mixer_gain value) d))),
          upd_dev (Some (snd (airspy_do (airspy_set_mixer_gain value) d))) o,
          [airspy_set_mixer_gain value]).
Proof.
  intros Hd Hv. unfold set_mix_gain. unfold bind at 1 2. unfold get at 1. rewrite Hd.
  rewrite (set_stage_gain_open _ _ _ _ _ _ _ _ Hd Hv).
  destruct (AIRSPY_SUCCESS =? fst (airspy_do (airspy_set_mixer_gain value) d)); reflexivity.
Qed.

(** Switching the automatic mode off: the calls made, by how far the
    device lets the method get. *)
Lemma set_gain_mode_off_open (o : airspy_source_c) (d : airspy_device) (l m : Z) :
  _dev o = Some d ->
  double_to_unsigned 8 (clip (get_gain_range_named "LNA") (_lna_gain o) true) = Some l ->
  double_to_unsigned 8 (clip (get_gain_range_named "MIX") (_mix_gain o) true) = Some m ->
  exists r o' t,
    set_gain_mode false o = (r, o', t) /\
    ((t = [airspy_set_lna_agc 0; airspy_set_mixer_agc 0; airspy_set_lna_gain l]
      /\ r <> Returns false) \/
     (t = [airspy_set_lna_agc 0; airspy_set_mixer_agc 0;
           airspy_set_lna_gain l; airspy_set_mixer_gain m]
      /\ (r = Returns false -> _auto_gain o' = false))).
Proof.
  intros Hd Hl Hm. unfold set_gain_mode.
  set (d1 := snd (airspy_do (airspy_set_lna_agc 0) d)).
  set (d2 := snd (airspy_do (airspy_set_mixer_agc 0) d1)).
  set (o2 := upd_dev (Some d2) (upd_dev (Some d1) o)).
  assert (Hd2 : _dev o2 = Some d2) by reflexivity.
  assert (Hl2 : double_to_unsigned 8 (clip (get_gain_range_named "LNA") (_lna_gain o2) true)
                = Some l) by exact Hl.
  pose proof (set_lna_gain_open (_lna_gain o2) o2 d2 l Hd2 Hl2) as Hlna.
  destruct (AIRSPY_SUCCESS =? fst (airspy_do (airspy_set_lna_gain l) d2)).
  - set (o3 := upd_lna_gain (clip (get_gain_range_named "LNA") (_lna_gain o2) true)
                 (upd_dev (Some (snd (airspy_do (airspy_set_lna_gain l) d2))) o2)) in *.
    assert (Hd3 : _dev o3 = Some (snd (airspy_do (airspy_set_lna_gain l) d2))) by reflexivity.
    assert (Hm3 : double_to_unsigned 8 (clip (get_gain_range_named "MIX") (_mix_gain o3) true)
                  = Some m) by exact Hm.
    pose proof (set_mix_gain_open (_mix_gain o3) o3 _ m Hd3 Hm3) as Hmix.
    destruct (AIRSPY_SUCCESS =? fst (airspy_do (airspy_set_mixer_gain m)
                                       (snd (airspy_do (airspy_set_lna_gain l) d2)))).
    + eexists _, _, _. split.
      * eapply (runs_bind _ _ o).
        -- eapply runs_bind; [apply (call_open _ _ _ Hd)|].
           eapply runs_bind; [apply call_open; reflexivity|].
           eapply runs_bind; [reflexivity|].
           eapply runs_bind; [exact Hlna|].
           eapply runs_bind; [reflexivity|].
           eapply runs_bind; [exact Hmix|]. reflexivity.
        -- reflexivity.
      * right. split; [reflexivity | intros _; reflexivity].
    + eexists _, _, _. split.
      * eapply (runs_bind_throws _ _ o).
        eapply runs_bind; [apply (call_open _ _ _ Hd)|].
        eapply runs_bind; [apply call_open; reflexivity|].
        eapply runs_bind; [reflexivity|].
        eapply runs_bind; [exact Hlna|].
        eapply runs_bind; [reflexivity|].
        eapply runs_bind_throws. exact Hmix.
      * right. split; [reflexivity | intros H; discriminate H].
  - eexists _, _, _. split.
    + eapply (runs_bind_throws _ _ o).
      eapply runs_bind; [apply (call_open _ _ _ Hd)|].
      eapply runs_bind; [apply call_open; reflexivity|].
      eapply runs_bind; [reflexivity|].
      eapply runs_bind_throws. exact Hlna.
    + left. split; [reflexivity | discriminate].
Qed.

Lemma set_gain_mode_on_open (o : airspy_source_c) (d : airspy_device) :
  _dev o = Some d ->
  exists d2,
    set_gain_mode true o
    = (Returns true, upd_auto_gain true (upd_dev (Some d2) o),
       [airspy_set_lna_agc 1; airspy_set_mixer_agc 1]).
Proof.
  intros Hd. eexists. unfold set_gain_mode, get_gain_mode, bind.
  rewrite (call_open _ _ _ Hd).
  rewrite (call_open _ (upd_dev _ o) _ eq_refl).
  reflexivity.
Qed.

(** C8, as the code has it.  On an open device, enabling the automatic
    mode leaves the three cached per-stage gains as they were, and
    switching it off again makes no IF (VGA) gain call: when the method
    returns, it has switched both AGCs off and sent again the cached LNA
    and mixer gains (clipped once more and cut to [uint8_t]), and
    nothing else. *)
Theorem manual_mode_reapplies_lna_and_mix
        (o : airspy_source_c) (d : airspy_device) (l m : Z) :
  _dev o = Some d ->
  double_to_unsigned 8 (clip (get_gain_range_named "LNA") (_lna_gain o) true) = Some l ->
  double_to_unsigned 8 (clip (get_gain_range_named "MIX") (_mix_gain o) true) = Some m ->
  (_lna_gain (state_after (set_gain_mode true) o) = _lna_gain o /\
   _mix_gain (state_after (set_gain_mode true) o) = _mix_gain o /\
   _vga_gain (state_after (set_gain_mode true) o) = _vga_gain o) /\
  (forall v, ~ In (airspy_set_vga_gain v) (calls_made (set_gain_mode false) o)) /\
  (result_of (set_gain_mode false) o = Returns false ->
   calls_made (set_gain_mode false) o
   = [airspy_set_lna_agc 0; airspy_set_mixer_agc 0;
      airspy_set_lna_gain l; airspy_set_mixer_gain m] /\
   _auto_gain (state_after (set_gain_mode false) o) = false).
Proof.
  intros Hd Hl Hm. split; [|split].
  - destruct (set_gain_mode_on_open o d Hd) as [d2 Hon].
    unfold state_after. rewrite Hon. cbn. repeat split; reflexivity.
  - destruct (set_gain_mode_off_open o d l m Hd Hl Hm) as (r & o' & t & Hrun & Ht).
    unfold calls_made. rewrite Hrun. cbn [snd]. intros v Hin.
    destruct Ht as [[-> _]|[-> _]]; cbn [In] in Hin;
      repeat (destruct Hin as [Hin|Hin]; [discriminate Hin|]); exact Hin.
  - destruct (set_gain_mode_off_open o d l m Hd Hl Hm) as (r & o' & t & Hrun & Ht).
    unfold calls_made, result_of, state_after. rewrite Hrun. cbn [fst snd].
    intros ->. destruct Ht as [[_ Hne]|[-> Hauto]]; [congruence|].
    split; [reflexivity | apply Hauto; reflexivity].
Qed.

(** C9.  On an open handle [start] asks the library once to start
    reception, with the block's static callback and the object's own
    address as its context, and leaves behind the handle the device as
    that call left it (nothing else of the object changes); it returns
    false when the library answers anything but success, true when it
    answers success, and throws in neither case. *)
Theorem start_reports_rejection (this : Z) (o : airspy_source_c) (d : airspy_device) :
  _dev o = Some d ->
  calls_made (start this) o = [airspy_start_rx _airspy_rx_callback this] /\
  state_after (start this) o
  = upd_dev (Some (snd (airspy_do (airspy_start_rx _airspy_rx_callback this) d))) o /\
  (fst (airspy_do (airspy_start_rx _airspy_rx_callback this) d) <> AIRSPY_SUCCESS ->
   result_of (start this) o = Returns false) /\
  (fst (airspy_do (airspy_start_rx _airspy_rx_callback this) d) = AIRSPY_SUCCESS ->
   result_of (start this) o = Returns true).
Proof.
  intros Hd.
  assert (Hrun : start this o
                 = (Returns (fst (airspy_do (airspy_start_rx _airspy_rx_callback this) d)
                             =? AIRSPY_SUCCESS),
                    upd_dev (Some (snd (airspy_do (airspy_start_rx _airspy_rx_callback this)
                                                  d))) o,
                    [airspy_start_rx _airspy_rx_callback this])).
  { unfold start. unfold bind at 1. unfold get. rewrite Hd.
    unfold bind. rewrite (call_open _ _ _ Hd).
    destruct (fst (airspy_do (airspy_start_rx _airspy_rx_callback this) d)
              =? AIRSPY_SUCCESS); reflexivity. }
  unfold calls_made, state_after, result_of. rewrite Hrun. cbn [fst snd].
  split; [reflexivity|]. split; [reflexivity|].
  destruct (Z.eqb_spec (fst (airspy_do (airspy_start_rx _airspy_rx_callback this) d))
                       AIRSPY_SUCCESS) as [E|E].
  - split; [intros H; congruence | reflexivity].
  - split; [reflexivity | intros H; congruence].
Qed.

(** C10.  With the null handle, each of [set_sample_rate],
    [set_center_freq], [set_gain], [set_lna_gain], [set_mix_gain] and
    [set_if_gain] returns the value cached for it, makes no device call
    and leaves the whole object as it was; none throws. *)
Theorem setters_inert_on_null_handle (x : double) (o : airspy_source_c) :
  _dev o = None ->
  set_sample_rate x o = (Returns (_sample_rate o), o, []) /\
  set_center_freq x o = (Returns (_center_freq o), o, []) /\
  set_gain x o = (Returns (_gain o), o, []) /\
  set_lna_gain x o = (Returns (_lna_gain o), o, []) /\
  set_mix_gain x o = (Returns (_mix_gain o), o, []) /\
  set_if_gain x o = (Returns (_vga_gain o), o, []).
Proof.
  intros Hd.
  unfold set_sample_rate, set_center_freq, set_gain, set_lna_gain, set_mix_gain,
    set_if_gain, get_sample_rate, get_center_freq.
  unfold bind, get, ret. rewrite Hd. repeat split; reflexivity.
Qed.

End ControlClaims.

(** ** The properties on the simulated device *)

Lemma sim_stop_quiesces (d d' : sim_device) :
  sim_do airspy_stop_rx d = (AIRSPY_SUCCESS, d') ->
  (if sim_streaming d' then AIRSPY_TRUE else 0) <> AIRSPY_TRUE.
Proof.
  destruct d as [s c]. unfold sim_do. cbn [sim_code].
  destruct (Z.eqb_spec c AIRSPY_SUCCESS) as [E|E]; intros H.
  - injection H as <-. cbn. discriminate.
  - injection H as Hc _. congruence.
Qed.

Lemma run_events_wakes {lib : AirspyLib} (k : nat) (o : airspy_source_c) :
  run_events (repeat EvWake k) o = Some o.
Proof. induction k as [|k IH]; [reflexivity | exact IH]. Qed.

Lemma run0_streaming : streaming run0.
Proof. exists (mk_sim true AIRSPY_SUCCESS). split; reflexivity. Qed.

Lemma run0_fifo_ok : fifo_ok run0.
Proof. unfold fifo_ok. vm_compute. split; discriminate. Qed.

(** C2 on two transfers, of two and of three samples. *)
Lemma work_returns_pushed_in_order_witness :
  exists o1,
    run_events (callbacks [(ramp 2, 2); (ramp 3, 3)]) run0 = Some o1 /\
    work (total_count [(ramp 2, 2); (ramp 3, 3)]) [] o1
    = WorkReturned (total_count [(ramp 2, 2); (ramp 3, 3)])
                   (decode_all [(ramp 2, 2); (ramp 3, 3)])
                   (upd_fifo (CB.mk 10 []) o1).
Proof.
  apply (work_returns_pushed_in_order [(ramp 2, 2); (ramp 3, 3)] 10 [] run0).
  - exists (mk_sim true AIRSPY_SUCCESS). split; reflexivity.
  - reflexivity.
  - repeat constructor; vm_compute; discriminate.
  - vm_compute. split; discriminate.
Defined.

(** C3 on a consumer asking for two samples of an empty buffer: blocked
    while nothing arrives, served once three samples have arrived and it
    is woken. *)
Lemma work_blocks_then_pops_witness :
  work 2 [] run0 = WorkBlocked run0 /\
  exists out o', work 2 [EvCallback (ramp 3) 3; EvWake] run0 = WorkReturned 2 out o'.
Proof.
  split.
  - apply (work_blocks_then_pops 2 [] run0).
    + exists (mk_sim true AIRSPY_SUCCESS). split; reflexivity.
    + unfold fifo_ok. vm_compute. split; discriminate.
    + vm_compute. split; discriminate.
    + reflexivity.
    + intros [|e pre] post o1 Hsched Hrun; [|discriminate Hsched].
      injection Hrun as <-. reflexivity.
  - apply (work_blocks_then_pops 2 [EvCallback (ramp 3) 3; EvWake] run0)
      with (pre := [EvCallback (ramp 3) 3]) (post := [])
           (o1 := upd_fifo (CB.mk 10 (decode_iq (ramp 3) 3)) run0).
    + exists (mk_sim true AIRSPY_SUCCESS). split; reflexivity.
    + unfold fifo_ok. vm_compute. split; discriminate.
    + vm_compute. split; discriminate.
    + reflexivity.
    + reflexivity.
    + vm_compute. discriminate.
Defined.

(** C4 as claimed fails: [stop] returns true, and the consumer that was
    waiting for one sample is still blocked after it, however many
    times it is woken; it is never handed [WORK_DONE]. *)
Lemma work_stays_blocked_after_stop :
  result_of stop run0 = Returns true /\
  (forall k, work 1 (EvStop :: repeat EvWake k) run0
             = WorkBlocked (state_after stop run0)) /\
  ~ (exists k out o',
        work 1 (EvStop :: repeat EvWake k) run0 = WorkReturned WORK_DONE out o').
Proof.
  assert (Hblocked : forall k, work 1 (EvStop :: repeat EvWake k) run0
                               = WorkBlocked (state_after stop run0)).
  { intros k.
    destruct (blocked_without_callbacks 1 (EvStop :: repeat EvWake k) run0
                run0_streaming run0_fifo_ok) as (o2 & Hwork & _ & Hrun).
    - reflexivity.
    - cbn [no_callback forallb andb]. clear. induction k; [reflexivity | assumption].
    - rewrite Hwork. f_equal.
      change (run_events (repeat EvWake k) (state_after stop run0) = Some o2) in Hrun.
      rewrite run_events_wakes in Hrun. injection Hrun as <-. reflexivity. }
  split; [reflexivity|]. split; [exact Hblocked|].
  intros (k & out & o' & Hret). rewrite Hblocked in Hret. discriminate Hret.
Qed.

(** C4 as amended, on the simulated device: [work] entered after [stop]
    ends the stream; the consumer caught in the loop stays there. *)
Lemma work_checks_session_on_entry_only_witness :
  work 1 [EvStop; EvWake] (state_after stop run0)
  = WorkReturned WORK_DONE [] (state_after stop run0) /\
  exists o2, work 1 [EvStop; EvWake] run0 = WorkBlocked o2 /\
             _fifo o2 = _fifo run0 /\
             run_events [EvStop; EvWake] run0 = Some o2.
Proof.
  split.
  - apply (proj1 (work_checks_session_on_entry_only 1 [EvStop; EvWake] run0
                    sim_stop_quiesces)
             (state_after stop run0) [airspy_stop_rx]).
    reflexivity.
  - apply (proj2 (work_checks_session_on_entry_only 1 [EvStop; EvWake] run0
                    sim_stop_quiesces)).
    + exists (mk_sim true AIRSPY_SUCCESS). split; reflexivity.
    + unfold fifo_ok. vm_compute. split; discriminate.
    + reflexivity.
    + reflexivity.
Defined.

(** C5 on an idle device with three samples buffered. *)
Lemma work_done_when_not_streaming_witness :
  work 3 [EvWake] (upd_fifo (CB.mk 10 (decode_iq (ramp 3) 3)) open0)
  = WorkReturned WORK_DONE [] (upd_fifo (CB.mk 10 (decode_iq (ramp 3) 3)) open0).
Proof.
  apply (work_done_when_not_streaming 3 [EvWake]
           (upd_fifo (CB.mk 10 (decode_iq (ramp 3) 3)) open0)).
  intros d Hd. injection Hd as <-. vm_compute. discriminate.
Defined.

(** C6 on the rates 3 MS/s (not in the list) and 10 MS/s (in it). *)
Lemma set_sample_rate_exact_match_witness :
  set_sample_rate 3000000 open0 = (Throws (Unsupported_samplerate 3000000), open0, []) /\
  exists first index,
    In (first, index) (_sample_rates open0) /\ PrimFloat.eqb first 10000000 = true /\
    calls_made (set_sample_rate 10000000) open0 = [airspy_set_samplerate index] /\
    forall d', sim_do (airspy_set_samplerate index) (mk_sim false AIRSPY_SUCCESS)
               = (AIRSPY_SUCCESS, d') ->
      set_sample_rate 10000000 open0
      = (Returns 10000000%float,
         upd_sample_rate 10000000 (upd_dev (Some d') open0),
         [airspy_set_samplerate index]).
Proof.
  split.
  - apply (proj1 (set_sample_rate_exact_match 3000000 open0
                    (mk_sim false AIRSPY_SUCCESS) eq_refl)).
    reflexivity.
  - apply (proj2 (set_sample_rate_exact_match 10000000 open0
                    (mk_sim false AIRSPY_SUCCESS) eq_refl)).
    reflexivity.
Defined.

(** C7 with a correction of 10 ppm and a centre frequency of 100 MHz:
    the device is sent 100 001 000 Hz. *)
Lemma freq_corr_applies_to_center_freq_witness :
  calls_made (set_freq_corr 10) open0 = [airspy_set_freq 0] /\
  _freq_corr (state_after (set_freq_corr 10) open0) = 10%float /\
  exists d1,
    _dev (state_after (set_freq_corr 10) open0) = Some d1 /\
    calls_made (set_center_freq 100000000) (state_after (set_freq_corr 10) open0)
    = [airspy_set_freq 100001000] /\
    (fst (sim_do (airspy_set_freq 100001000) d1) = AIRSPY_SUCCESS ->
     result_of (set_center_freq 100000000) (state_after (set_freq_corr 10) open0)
     = Returns 100000000%float /\
     result_of get_center_freq
               (state_after (set_center_freq 100000000)
                            (state_after (set_freq_corr 10) open0))
     = Returns 100000000%float).
Proof.
  apply (freq_corr_applies_to_center_freq 10 100000000 open0
           (mk_sim false AIRSPY_SUCCESS) 0 100001000); reflexivity.
Defined.

(** C8 as claimed fails: with LNA 3, mixer 4 and IF 7 set by hand and
    the automatic mode then switched on, switching it off sends the LNA
    and mixer gains again but not the IF gain. *)
Lemma manual_mode_skips_if_gain :
  _vga_gain agc0 = 7%float /\
  set_gain_mode false agc0
  = (Returns false, upd_auto_gain false agc0,
     [airspy_set_lna_agc 0; airspy_set_mixer_agc 0;
      airspy_set_lna_gain 3; airspy_set_mixer_gain 4]) /\
  ~ In (airspy_set_vga_gain 7) (calls_made (set_gain_mode false) agc0).
Proof.
  split; [reflexivity|]. split; [reflexivity|].
  vm_compute. intros H.
  repeat (destruct H as [H|H]; [discriminate H|]). exact H.
Qed.

(** C8 as amended, on the same block. *)
Lemma manual_mode_reapplies_lna_and_mix_witness :
  (_lna_gain (state_after (set_gain_mode true) agc0) = _lna_gain agc0 /\
   _mix_gain (state_after (set_gain_mode true) agc0) = _mix_gain agc0 /\
   _vga_gain (state_after (set_gain_mode true) agc0) = _vga_gain agc0) /\
  (forall v, ~ In (airspy_set_vga_gain v) (calls_made (set_gain_mode false) agc0)) /\
  (result_of (set_gain_mode false) agc0 = Returns false ->
   calls_made (set_gain_mode false) agc0
   = [airspy_set_lna_agc 0; airspy_set_mixer_agc 0;
      airspy_set_lna_gain 3; airspy_set_mixer_gain 4] /\
   _auto_gain (state_after (set_gain_mode false) agc0) = false).
Proof.
  apply (manual_mode_reapplies_lna_and_mix agc0 (mk_sim false AIRSPY_SUCCESS) 3 4);
    reflexivity.
Defined.

(** C9 on a device that refuses, which stays idle, and on one that
    accepts, which is streaming afterwards: [open0] becomes [run0]. *)
Lemma start_reports_rejection_witness :
  start 4096 refusing0
  = (Returns false, refusing0, [airspy_start_rx _airspy_rx_callback 4096]) /\
  result_of (start 4096) refusing0 = Returns false /\
  result_of (start 4096) open0 = Returns true /\
  calls_made (start 4096) open0 = [airspy_start_rx _airspy_rx_callback 4096] /\
  state_after (start 4096) open0 = run0 /\
  state_after (start 4096) refusing0 = refusing0.
Proof.
  split; [reflexivity|]. split; [|split; [|split; [|split]]].
  - apply (start_reports_rejection 4096 refusing0 (mk_sim false (-5)) eq_refl).
    vm_compute. discriminate.
  - apply (start_reports_rejection 4096 open0 (mk_sim false AIRSPY_SUCCESS) eq_refl).
    reflexivity.
  - apply (start_reports_rejection 4096 open0 (mk_sim false AIRSPY_SUCCESS) eq_refl).
  - exact (proj1 (proj2 (start_reports_rejection 4096 open0
                           (mk_sim false AIRSPY_SUCCESS) eq_refl))).
  - exact (proj1 (proj2 (start_reports_rejection 4096 refusing0
                           (mk_sim false (-5)) eq_refl))).
Defined.

(** C10 on the block with the null handle. *)
Lemma setters_inert_on_null_handle_witness :
  set_sample_rate 10000000 closed0 = (Returns (_sample_rate closed0), closed0, []) /\
  set_center_freq 10000000 closed0 = (Returns (_center_freq closed0), closed0, []) /\
  set_gain 10000000 closed0 = (Returns (_gain closed0), closed0, []) /\
  set_lna_gain 10000000 closed0 = (Returns (_lna_gain closed0), closed0, []) /\
  set_mix_gain 10000000 closed0 = (Returns (_mix_gain closed0), closed0, []) /\
  set_if_gain 10000000 closed0 = (Returns (_vga_gain closed0), closed0, []).
Proof.
  apply (setters_inert_on_null_handle 10000000 closed0). reflexivity.
Defined.

(** ** The definitions on concrete values *)

Example trunc_double_examples :
  trunc_double 2.5 = Some 2 /\ trunc_double (-2.5) = Some (-2) /\
  trunc_double nan = None /\ trunc_double infinity = None /\
  double_to_unsigned 8 255.9 = Some 255 /\ double_to_unsigned 8 256 = None /\
  double_to_unsigned 8 (-0.5) = Some 0 /\ double_to_unsigned 8 (-1) = None.
Proof. repeat split; reflexivity. Qed.

Example apply_ppm_corr_example :
  double_to_unsigned 64 (APPLY_PPM_CORR 100000000 10) = Some 100001000 /\
  double_to_unsigned 64 (APPLY_PPM_CORR 433920000 (-2.5)) = Some 433918915.
Proof. split; reflexivity. Qed.

Example to_int_wraps :
  to_int 5000000 = 5000000 /\ to_int (2 ^ 31) = - 2 ^ 31 /\
  to_size_t (-1) = 2 ^ 64 - 1.
Proof. repeat split; reflexivity. Qed.

(** A full [circular_buffer] overwrites its oldest element on
    [push_back]; the callback never lets it come to that. *)
Example push_back_overwrites_when_full (a b c : gr_complex) :
  CB.push_back c (CB.mk 2 [a; b]) = CB.mk 2 [b; c].
Proof. reflexivity. Qed.

(** Capacity ten: six samples in, four out leaves the fifth and sixth;
    six more fit, the buffer then holds eight and no overrun is marked. *)
Example push_pop_push_scenario :
  exists o1 out o2 r o3,
    airspy_rx_callback (ramp 6) 6 run0 = Some (r, o1) /\
    work 4 [] o1 = WorkReturned 4 out o2 /\
    out = firstn 4 (decode_iq (ramp 6) 6) /\
    CB.elems (_fifo o2) = skipn 4 (decode_iq (ramp 6) 6) /\
    airspy_rx_callback (ramp 6) 6 o2
    = Some (mk_callback_result 0 true ""%string, o3) /\
    CB.size (_fifo o3) = 8.
Proof. repeat eexists; reflexivity. Qed.

(** A call with a negative count: the count wraps to a huge [size_t],
    the callback fills the free room and marks an overrun; with a
    transfer too short for that it reads past its end. *)
Example negative_count_wraps :
  airspy_rx_callback (ramp 2) (-1) run0 = None /\
  option_map (fun p => cb_cerr (fst p)) (airspy_rx_callback (ramp 10) (-1) run0)
  = Some "O"%string.
Proof. split; reflexivity. Qed.

Example clip_one_examples :
  clip_one (mk_range 0 15 1) 7.6 true = 8%float /\
  clip_one (mk_range 0 15 1) (-3) true = 0%float /\
  clip_one (mk_range 0 15 1) 99 true = 15%float /\
  clip_one (mk_range 0 21 1) 2.5 true = 3%float.
Proof. repeat split; reflexivity. Qed.

(** * Further properties of the block *)

(** ** The callback on arbitrary transfers *)

Section CallbackEdges.

Context {lib : AirspyLib}.

Lemma push_samples_defined (n : nat) :
  forall sample fifo f,
    push_samples n sample fifo = Some f -> (2 * n <= length sample)%nat.
Proof.
  induction n as [|n IH]; intros sample fifo f Hpush; [lia|].
  destruct sample as [|i [|q rest]]; try discriminate.
  cbn [push_samples] in Hpush. apply IH in Hpush. simpl. lia.
Qed.

Lemma push_samples_short (n : nat) :
  forall sample fifo,
    (length sample < 2 * n)%nat -> push_samples n sample fifo = None.
Proof.
  induction n as [|n IH]; intros sample fifo Hlen; [lia|].
  destruct sample as [|i [|q rest]]; try reflexivity.
  cbn [push_samples]. apply IH. simpl in Hlen. lia.
Qed.

(** The number of samples the callback sets out to copy. *)
Lemma to_copy_is_min (sample_count : Z) (o : airspy_source_c) :
  fifo_ok o ->
  (if to_size_t (CB.capacity (_fifo o) - CB.size (_fifo o)) <? to_size_t sample_count
   then to_size_t (CB.capacity (_fifo o) - CB.size (_fifo o))
   else to_size_t sample_count)
  = Z.min (CB.capacity (_fifo o) - CB.size (_fifo o)) (to_size_t sample_count).
Proof.
  intros [Hsz Hcap]. pose proof (size_nonneg (_fifo o)) as Hs.
  rewrite (to_size_t_small (CB.capacity (_fifo o) - CB.size (_fifo o)))
    by (unfold INT_MAX in Hcap; lia).
  destruct (Z.ltb_spec (CB.capacity (_fifo o) - CB.size (_fifo o))
                       (to_size_t sample_count)); lia.
Qed.

Lemma upd_fifo_same (o : airspy_source_c) :
  upd_fifo (CB.mk (CB.capacity (_fifo o)) (CB.elems (_fifo o))) o = o.
Proof. destruct o as [? ? ? ? ? ? ? ? ? ? ? ? [c l]]. reflexivity. Qed.

(** X1.  Whatever count the library passes (a negative one wraps to a
    huge [size_t]), a callback that stays inside its transfer takes
    min(free room, count) samples, returns 0, notifies the consumer
    exactly when it took at least one sample, and marks an overrun
    exactly when it took fewer than the count. *)
Theorem rx_callback_reports (samples : list c_float) (sample_count : Z)
        (o o' : airspy_source_c) (r : callback_result) :
  fifo_ok o ->
  airspy_rx_callback samples sample_count o = Some (r, o') ->
  accepted o o'
  = Z.min (CB.capacity (_fifo o) - CB.size (_fifo o)) (to_size_t sample_count) /\
  cb_return r = 0 /\
  (cb_notified r = true <-> 0 < accepted o o') /\
  (cb_cerr r = "O"%string <-> accepted o o' < to_size_t sample_count).
Proof.
  intros Hok Hcb. unfold airspy_rx_callback in Hcb.
  rewrite (to_copy_is_min sample_count o Hok) in Hcb.
  set (a := Z.min (CB.capacity (_fifo o) - CB.size (_fifo o)) (to_size_t sample_count)) in *.
  assert (Ha : 0 <= a <= CB.capacity (_fifo o) - CB.size (_fifo o)).
  { destruct Hok as [Hsz _]. unfold a, to_size_t.
    pose proof (Z.mod_pos_bound sample_count (2 ^ 64)). lia. }
  destruct (push_samples (Z.to_nat a) samples (_fifo o)) as [f|] eqn:Hpush; [|discriminate].
  injection Hcb as <- <-.
  pose proof (push_samples_defined _ _ _ _ Hpush) as Hlen.
  apply push_samples_some in Hpush; [|lia]. subst f.
  assert (Hacc : accepted o (upd_fifo (CB.mk (CB.capacity (_fifo o))
                   (CB.elems (_fifo o) ++ decode_iq samples (Z.to_nat a))) o) = a).
  { unfold accepted, CB.size. cbn [_fifo upd_fifo CB.elems].
    rewrite length_app, decode_iq_length by exact Hlen. lia. }
  rewrite Hacc. cbn [cb_return cb_notified cb_cerr].
  split; [reflexivity|]. split; [reflexivity|]. split.
  - destruct (Z.eqb_spec a 0) as [E|E]; cbn [negb]; split; intros Hx;
      try reflexivity; try lia; discriminate Hx.
  - destruct (Z.ltb_spec a (to_size_t sample_count)) as [E|E]; split; intros Hx;
      try reflexivity; try lia; discriminate Hx.
Qed.

(** X2.  The callback reads exactly the floats of the samples it
    copies: it stays inside the transfer (is defined) if and only if the
    transfer holds two floats for each of the min(free room, count)
    samples. *)
Theorem rx_callback_reads_what_it_copies
        (samples : list c_float) (sample_count : Z) (o : airspy_source_c) :
  fifo_ok o ->
  (airspy_rx_callback samples sample_count o <> None
   <-> 2 * Z.min (CB.capacity (_fifo o) - CB.size (_fifo o)) (to_size_t sample_count)
       <= Z.of_nat (length samples)).
Proof.
  intros Hok. unfold airspy_rx_callback.
  rewrite (to_copy_is_min sample_count o Hok).
  set (a := Z.min (CB.capacity (_fifo o) - CB.size (_fifo o)) (to_size_t sample_count)).
  assert (Ha : 0 <= a).
  { destruct Hok as [Hsz _]. unfold a, to_size_t.
    pose proof (Z.mod_pos_bound sample_count (2 ^ 64)). lia. }
  destruct (push_samples (Z.to_nat a) samples (_fifo o)) as [f|] eqn:Hpush.
  - apply push_samples_defined in Hpush. split; [intros _; lia | discriminate].
  - split; [intros H; congruence|]. intros Hlen. exfalso.
    destruct (Nat.lt_ge_cases (length samples) (2 * Z.to_nat a)) as [Hlt|Hge]; [lia|].
    destruct Hok as [Hsz Hcap].
    rewrite push_samples_fits in Hpush; [discriminate | exact Hge |].
    unfold a. lia.
Qed.

(** X3.  On a full buffer the callback reads nothing and changes
    nothing: for any transfer and any count it is defined, leaves the
    object as it is, does not notify, and marks an overrun unless the
    count is zero. *)
Theorem rx_callback_on_full_buffer
        (samples : list c_float) (sample_count : Z) (o : airspy_source_c) :
  fifo_ok o ->
  CB.size (_fifo o) = CB.capacity (_fifo o) ->
  airspy_rx_callback samples sample_count o
  = Some (mk_callback_result 0 false
            (if 0 <? to_size_t sample_count then "O"%string else ""%string), o).
Proof.
  intros Hok Hfull. unfold airspy_rx_callback.
  rewrite (to_copy_is_min sample_count o Hok). rewrite Hfull, Z.sub_diag.
  assert (Hns : 0 <= to_size_t sample_count).
  { unfold to_size_t. pose proof (Z.mod_pos_bound sample_count (2 ^ 64)). lia. }
  rewrite Z.min_l by exact Hns. cbn [Z.to_nat push_samples Z.eqb negb].
  rewrite <- (upd_fifo_same o) at 3.
  destruct o as [? ? ? ? ? ? ? ? ? ? ? ? [c l]]. reflexivity.
Qed.

End CallbackEdges.

(** ** The buffer under any schedule, and the edges of [work] *)

Section WorkEdges.

Context {lib : AirspyLib}.

Lemma run_events_appends (sched : list event) :
  forall o o', fifo_ok o -> run_events sched o = Some o' ->
    CB.capacity (_fifo o') = CB.capacity (_fifo o) /\
    exists added, CB.elems (_fifo o') = CB.elems (_fifo o) ++ added.
Proof.
  induction sched as [|ev rest IH]; intros o o' Hok Hrun.
  - injection Hrun as <-. split; [reflexivity|]. exists []. rewrite app_nil_r. reflexivity.
  - destruct ev as [samples c| |]; cbn [run_events] in Hrun.
    + destruct (airspy_rx_callback samples c o) as [[r o1]|] eqn:Hcb; [|discriminate].
      destruct (rx_callback_keeps _ _ _ _ _ Hok Hcb) as (Hok1 & _).
      destruct (rx_callback_some _ _ _ _ _ Hok Hcb) as (n & _ & Ho1).
      destruct (IH _ _ Hok1 Hrun) as (Hcap & added & Hel).
      rewrite Hcap, Hel, Ho1. cbn [_fifo upd_fifo CB.capacity CB.elems].
      split; [reflexivity|]. eexists. rewrite <- app_assoc. reflexivity.
    + destruct (stop o) as [[r o1] t] eqn:Hstop.
      destruct (stop_keeps_ok _ _ _ _ Hstop Hok) as [Hok1 Hf].
      destruct (IH _ _ Hok1 Hrun) as (Hcap & added & Hel).
      rewrite Hcap, Hel, Hf. split; [reflexivity|]. exists added. reflexivity.
    + apply IH; assumption.
Qed.

Lemma buffer_bound (sched : list event) (o o' : airspy_source_c) :
  fifo_ok o -> run_events sched o = Some o' ->
  CB.size (_fifo o') <= CB.capacity (_fifo o).
Proof.
  intros Hok Hrun.
  destruct (run_events_appends sched o o' Hok Hrun) as [Hcap _].
  destruct (run_events_keeps sched o o' Hok Hrun) as [[Hsz _] _].
  rewrite <- Hcap. exact Hsz.
Qed.

(** X4.  Whatever the other threads do (callbacks with any counts, with
    or without overruns, [stop], wake-ups), the buffer keeps its
    capacity, never holds more than it, and only grows at the back:
    what was buffered stays in front, in its order. *)
Theorem buffer_is_append_only (sched : list event) (o o' : airspy_source_c) :
  fifo_ok o ->
  run_events sched o = Some o' ->
  CB.capacity (_fifo o') = CB.capacity (_fifo o) /\
  CB.size (_fifo o') <= CB.capacity (_fifo o) /\
  exists added, CB.elems (_fifo o') = CB.elems (_fifo o) ++ added.
Proof.
  intros Hok Hrun.
  destruct (run_events_appends sched o o' Hok Hrun) as [Hcap Happ].
  destruct (run_events_keeps sched o o' Hok Hrun) as [[Hsz _] _].
  rewrite <- Hcap. repeat split; assumption.
Qed.

(** X5.  On a streaming session [work] never runs [_fifo->at(0)] on an
    empty buffer: whatever the request and the schedule, it does not end
    in [std::out_of_range]. *)
Theorem work_never_out_of_range (n : Z) (sched : list event) (o : airspy_source_c) :
  streaming o ->
  fifo_ok o ->
  forall o', work n sched o <> WorkOutOfRange o'.
Proof.
  intros Hstr Hok o'. rewrite (work_running n sched o Hstr).
  destruct (wait_for_samples n sched true o) as [o1| |] eqn:Hwait; try discriminate.
  destruct (wait_ready _ _ _ _ _ Hok Hwait) as (_ & _ & _ & _ & Hsize & _).
  rewrite drain_firstn by (unfold CB.size in Hsize; lia). discriminate.
Qed.

(** X6.  A request for more samples than the buffer's capacity is never
    served: under no schedule does [work] return. *)
Theorem work_beyond_capacity_never_returns
        (n : Z) (sched : list event) (o : airspy_source_c) :
  streaming o ->
  fifo_ok o ->
  CB.capacity (_fifo o) < n ->
  forall r out o', work n sched o <> WorkReturned r out o'.
Proof.
  intros Hstr Hok Hbig r out o' Hwork. rewrite (work_running n sched o Hstr) in Hwork.
  destruct (wait_for_samples n sched true o) as [o1| |] eqn:Hwait; try discriminate.
  destruct (wait_ready _ _ _ _ _ Hok Hwait) as (pre & post & _ & Hrun & Hsize & _).
  pose proof (buffer_bound pre o o1 Hok Hrun) as Hle. lia.
Qed.

End WorkEdges.

Section WorkCompose.

Context {lib : AirspyLib}.

Lemma firstn_plus {A} (n1 n2 : nat) :
  forall l : list A, firstn (n1 + n2) l = firstn n1 l ++ firstn n2 (skipn n1 l).
Proof.
  induction n1 as [|n1 IH]; intros l; [reflexivity|].
  destruct l as [|x l]; [destruct n2; reflexivity|].
  cbn [Nat.add firstn skipn app]. f_equal. apply IH.
Qed.

Lemma skipn_plus {A} (n1 n2 : nat) :
  forall l : list A, skipn (n1 + n2) l = skipn n2 (skipn n1 l).
Proof.
  induction n1 as [|n1 IH]; intros l; [reflexivity|].
  destruct l as [|x l]; [destruct n2; reflexivity|].
  cbn [Nat.add skipn]. apply IH.
Qed.

(** With enough samples buffered, [work] does not wait. *)
Lemma work_served_at_once (n : Z) (sched : list event) (o : airspy_source_c) :
  streaming o -> fifo_ok o -> n <= CB.size (_fifo o) ->
  work n sched o
  = WorkReturned n (firstn (Z.to_nat n) (CB.elems (_fifo o)))
      (upd_fifo (CB.mk (CB.capacity (_fifo o))
                       (skipn (Z.to_nat n) (CB.elems (_fifo o)))) o).
Proof.
  intros Hstr Hok Hn. rewrite (work_running n sched o Hstr).
  assert (Hchk : wait_for_samples n sched true o = Ready o).
  { pose proof (size_nonneg (_fifo o)) as Hs.
    destruct sched; cbn [wait_for_samples];
      rewrite to_int_small by (unfold fifo_ok in Hok; lia);
      (destruct (Z.ltb_spec (CB.size (_fifo o)) n) as [E|E]; [lia | reflexivity]). }
  rewrite Hchk. rewrite drain_firstn by (unfold CB.size in Hn; lia). reflexivity.
Qed.

(** X7.  A request for no samples (or a negative number of them) on a
    streaming session never waits: [work] returns the request at once,
    stores nothing and leaves the object as it is, even with an empty
    buffer. *)
Theorem work_for_nothing_returns_at_once
        (n : Z) (sched : list event) (o : airspy_source_c) :
  streaming o ->
  fifo_ok o ->
  n <= 0 ->
  work n sched o = WorkReturned n [] o.
Proof.
  intros Hstr Hok Hn.
  rewrite (work_served_at_once n sched o Hstr Hok)
    by (pose proof (size_nonneg (_fifo o)); lia).
  replace (Z.to_nat n) with 0%nat by lia. cbn [firstn skipn].
  rewrite upd_fifo_same. reflexivity.
Qed.

(** X8.  Two pulls in a row hand out what one pull of the summed size
    hands out: with [n1 + n2] samples buffered, [work n1] followed by
    [work n2] returns, back to back, the blocks that [work (n1 + n2)]
    returns as one, and both ways leave the same object. *)
Theorem consecutive_pulls_concatenate
        (n1 n2 : Z) (s1 s2 s3 : list event) (o : airspy_source_c) :
  streaming o ->
  fifo_ok o ->
  0 <= n1 -> 0 <= n2 ->
  n1 + n2 <= CB.size (_fifo o) ->
  exists out1 o1 out2 o2,
    work n1 s1 o = WorkReturned n1 out1 o1 /\
    work n2 s2 o1 = WorkReturned n2 out2 o2 /\
    work (n1 + n2) s3 o = WorkReturned (n1 + n2) (out1 ++ out2) o2 /\
    out1 ++ out2 ++ CB.elems (_fifo o2) = CB.elems (_fifo o).
Proof.
  intros Hstr Hok H1 H2 Hsum.
  set (o1 := upd_fifo (CB.mk (CB.capacity (_fifo o))
                             (skipn (Z.to_nat n1) (CB.elems (_fifo o)))) o).
  assert (Hstr1 : streaming o1) by exact Hstr.
  assert (Hsize1 : CB.size (_fifo o1) = CB.size (_fifo o) - n1).
  { unfold o1, CB.size in *. cbn [_fifo upd_fifo CB.elems]. rewrite length_skipn. lia. }
  assert (Hok1 : fifo_ok o1).
  { unfold fifo_ok in *. rewrite Hsize1. unfold o1. cbn [_fifo upd_fifo CB.capacity]. lia. }
  eexists _, o1, _, _. split; [|split; [|split]].
  - apply work_served_at_once; [assumption | assumption | lia].
  - apply work_served_at_once; [assumption | assumption | lia].
  - rewrite (work_served_at_once (n1 + n2) s3 o Hstr Hok Hsum).
    unfold o1. cbn [_fifo upd_fifo CB.elems CB.capacity].
    rewrite Z2Nat.inj_add by assumption.
    rewrite firstn_plus, skipn_plus. reflexivity.
  - unfold o1. cbn [_fifo upd_fifo CB.elems CB.capacity].
    rewrite firstn_skipn, firstn_skipn. reflexivity.
Qed.

End WorkCompose.

(** ** Lifecycle and control calls *)

Section ControlEdges.

Context {lib : AirspyLib} {ranges : MetaRange}.
Local Open Scope block_scope.

(** X9.  [start] and [stop] never throw.  On the null handle each
    returns false without a device call and leaves the object as it is;
    on an open handle each changes nothing but the device behind the
    handle: cached settings stay, and [stop] does not flush the
    buffer. *)
Theorem lifecycle_touches_only_device (this : Z) (o : airspy_source_c) :
  (exists b, result_of (start this) o = Returns b) /\
  (exists b, result_of stop o = Returns b) /\
  state_after (start this) o = upd_dev (_dev (state_after (start this) o)) o /\
  state_after stop o = upd_dev (_dev (state_after stop o)) o /\
  (_dev o = None ->
   start this o = (Returns false, o, []) /\ stop o = (Returns false, o, [])).
Proof.
  unfold result_of, state_after, start, stop, bind, get, call, ret.
  destruct (_dev o) as [d|] eqn:Hd.
  - rewrite Hd.
    destruct (airspy_do (airspy_start_rx _airspy_rx_callback this) d) as [r1 d1].
    destruct (airspy_do airspy_stop_rx d) as [r2 d2].
    destruct (negb (r1 =? AIRSPY_SUCCESS)), (negb (r2 =? AIRSPY_SUCCESS)); cbn;
      (split; [eexists; reflexivity|]); (split; [eexists; reflexivity|]);
      (split; [reflexivity|]); (split; [reflexivity|]); discriminate.
  - assert (Ho : upd_dev (_dev o) o = o) by (destruct o; reflexivity).
    cbn. rewrite Ho.
    split; [eexists; reflexivity|]. split; [eexists; reflexivity|].
    repeat split; reflexivity.
Qed.

Lemma keeps_fifo_ret {A} (a : A) : keeps_fifo (ret a).
Proof. intros o. reflexivity. Qed.

Lemma keeps_fifo_get : keeps_fifo get.
Proof. intros o. reflexivity. Qed.

Lemma keeps_fifo_throw {A} (e : runtime_error) : keeps_fifo (@throw _ A e).
Proof. intros o. reflexivity. Qed.

Lemma keeps_fifo_undefined {A} : keeps_fifo (@undefined _ A).
Proof. intros o. reflexivity. Qed.

Lemma keeps_fifo_call (c : airspy_call) : keeps_fifo (call c).
Proof.
  intros o. unfold call. destruct (_dev o) as [d|]; [|reflexivity].
  destruct (airspy_do c d). reflexivity.
Qed.

Lemma keeps_fifo_modify (f : airspy_source_c -> airspy_source_c) :
  (forall o, _fifo (f o) = _fifo o) -> keeps_fifo (modify f).
Proof. intros Hf o. cbn. apply Hf. Qed.

Lemma keeps_fifo_bind {A B} (m : M A) (k : A -> M B) :
  keeps_fifo m -> (forall a, keeps_fifo (k a)) -> keeps_fifo (bind m k).
Proof.
  intros Hm Hk o. unfold bind. specialize (Hm o).
  destruct (m o) as [[[a|e|] o1] t1]; cbn [fst snd] in *; try exact Hm.
  specialize (Hk a o1). destruct (k a o1) as [[r o2] t2]. cbn [fst snd] in *.
  congruence.
Qed.

Ltac keeps_fifo_steps :=
  repeat first
    [ apply keeps_fifo_ret | apply keeps_fifo_get | apply keeps_fifo_throw
    | apply keeps_fifo_undefined | apply keeps_fifo_call
    | apply keeps_fifo_modify; intros; reflexivity
    | apply keeps_fifo_bind; [|intros ?]
    | match goal with
      | |- keeps_fifo (match ?x with _ => _ end) => destruct x
      end ].

Lemma keeps_fifo_set_stage_gain gains gain cmd func store :
  (forall x o, _fifo (store x o) = _fifo o) ->
  keeps_fifo (set_stage_gain gains gain cmd func store).
Proof.
  intros Hstore. unfold set_stage_gain, AIRSPY_THROW_ON_ERROR.
  destruct (double_to_unsigned 8 (clip gains gain true)); [|apply keeps_fifo_undefined].
  apply keeps_fifo_bind; [apply keeps_fifo_call|]. intros r.
  destruct (AIRSPY_SUCCESS =? r).
  - apply keeps_fifo_modify. intros o. apply Hstore.
  - destruct (r =? AIRSPY_SUCCESS); [apply keeps_fifo_ret | apply keeps_fifo_throw].
Qed.

Lemma keeps_fifo_set_lna_gain gain : keeps_fifo (set_lna_gain gain).
Proof.
  unfold set_lna_gain. apply keeps_fifo_bind; [apply keeps_fifo_get|]. intros o.
  apply keeps_fifo_bind; [|intros; keeps_fifo_steps].
  destruct (_dev o); [|apply keeps_fifo_ret].
  apply keeps_fifo_set_stage_gain. reflexivity.
Qed.

Lemma keeps_fifo_set_mix_gain gain : keeps_fifo (set_mix_gain gain).
Proof.
  unfold set_mix_gain. apply keeps_fifo_bind; [apply keeps_fifo_get|]. intros o.
  apply keeps_fifo_bind; [|intros; keeps_fifo_steps].
  destruct (_dev o); [|apply keeps_fifo_ret].
  apply keeps_fifo_set_stage_gain. reflexivity.
Qed.

Lemma keeps_fifo_set_if_gain gain : keeps_fifo (set_if_gain gain).
Proof.
  unfold set_if_gain. apply keeps_fifo_bind; [apply keeps_fifo_get|]. intros o.
  apply keeps_fifo_bind; [|intros; keeps_fifo_steps].
  destruct (_dev o); [|apply keeps_fifo_ret].
  apply keeps_fifo_set_stage_gain. reflexivity.
Qed.

Lemma keeps_fifo_set_gain gain : keeps_fifo (set_gain gain).
Proof.
  unfold set_gain. apply keeps_fifo_bind; [apply keeps_fifo_get|]. intros o.
  apply keeps_fifo_bind; [|intros; keeps_fifo_steps].
  destruct (_dev o); [|apply keeps_fifo_ret].
  destruct (_gain_policy o); apply keeps_fifo_set_stage_gain; reflexivity.
Qed.

Lemma keeps_fifo_set_center_freq freq : keeps_fifo (set_center_freq freq).
Proof.
  unfold set_center_freq, get_center_freq, AIRSPY_THROW_ON_ERROR.
  apply keeps_fifo_bind; [apply keeps_fifo_get|]. intros o.
  apply keeps_fifo_bind; [|intros; keeps_fifo_steps].
  destruct (_dev o); [|apply keeps_fifo_ret].
  destruct (double_to_unsigned 64 (APPLY_PPM_CORR freq (_freq_corr o)));
    [|apply keeps_fifo_undefined].
  apply keeps_fifo_bind; [apply keeps_fifo_call|]. intros r.
  destruct (AIRSPY_SUCCESS =? r); [apply keeps_fifo_modify; reflexivity|].
  destruct (r =? AIRSPY_SUCCESS); [apply keeps_fifo_ret | apply keeps_fifo_throw].
Qed.

(** X10.  No lifecycle or control call touches the sample buffer,
    however it ends (returning, throwing or undefined): [start], [stop],
    the sample-rate, frequency and correction setters, the four gain
    setters, the setter by stage name and the gain-mode switch all leave
    [_fifo] exactly as it was. *)
Theorem control_surface_keeps_buffer
        (this : Z) (x : double) (name : string) (automatic : bool) :
  keeps_fifo (start this) /\ keeps_fifo stop /\
  keeps_fifo (set_sample_rate x) /\ keeps_fifo (set_center_freq x) /\
  keeps_fifo (set_freq_corr x) /\
  keeps_fifo (set_gain x) /\ keeps_fifo (set_lna_gain x) /\
  keeps_fifo (set_mix_gain x) /\ keeps_fifo (set_if_gain x) /\
  keeps_fifo (set_gain_named x name) /\
  keeps_fifo (set_gain_mode automatic).
Proof.
  repeat split.
  - unfold start. apply keeps_fifo_bind; [apply keeps_fifo_get|]. intros o.
    destruct (_dev o); [|apply keeps_fifo_ret].
    apply keeps_fifo_bind; [apply keeps_fifo_call|]. intros r.
    destruct (negb (r =? AIRSPY_SUCCESS)); apply keeps_fifo_ret.
  - unfold stop. apply keeps_fifo_bind; [apply keeps_fifo_get|]. intros o.
    destruct (_dev o); [|apply keeps_fifo_ret].
    apply keeps_fifo_bind; [apply keeps_fifo_call|]. intros r.
    destruct (negb (r =? AIRSPY_SUCCESS)); apply keeps_fifo_ret.
  - unfold set_sample_rate, get_sample_rate, AIRSPY_THROW_ON_ERROR.
    apply keeps_fifo_bind; [apply keeps_fifo_get|]. intros o.
    apply keeps_fifo_bind; [|intros; keeps_fifo_steps].
    destruct (_dev o); [|apply keeps_fifo_ret].
    destruct (find_rate (_sample_rates o) x false 0) as [found index].
    destruct (negb found); [apply keeps_fifo_throw|].
    apply keeps_fifo_bind; [apply keeps_fifo_call|]. intros r.
    destruct (AIRSPY_SUCCESS =? r); [apply keeps_fifo_modify; reflexivity|].
    destruct (r =? AIRSPY_SUCCESS); [apply keeps_fifo_ret | apply keeps_fifo_throw].
  - apply keeps_fifo_set_center_freq.
  - unfold set_freq_corr, get_freq_corr.
    apply keeps_fifo_bind; [apply keeps_fifo_modify; reflexivity|]. intros _.
    apply keeps_fifo_bind; [apply keeps_fifo_get|]. intros o.
    apply keeps_fifo_bind; [apply keeps_fifo_set_center_freq|]. intros _.
    keeps_fifo_steps.
  - apply keeps_fifo_set_gain.
  - apply keeps_fifo_set_lna_gain.
  - apply keeps_fifo_set_mix_gain.
  - apply keeps_fifo_set_if_gain.
  - unfold set_gain_named.
    destruct (String.eqb "LNA" name); [apply keeps_fifo_set_lna_gain|].
    destruct (String.eqb "MIX" name); [apply keeps_fifo_set_mix_gain|].
    destruct (String.eqb "IF" name); [apply keeps_fifo_set_if_gain|].
    apply keeps_fifo_set_gain.
  - unfold set_gain_mode, get_gain_mode.
    apply keeps_fifo_bind; [|intros _; apply keeps_fifo_bind;
                              [apply keeps_fifo_modify; reflexivity
                              |intros _; keeps_fifo_steps]].
    destruct automatic.
    + keeps_fifo_steps.
    + apply keeps_fifo_bind; [apply keeps_fifo_call|]. intros _.
      apply keeps_fifo_bind; [apply keeps_fifo_call|]. intros _.
      apply keeps_fifo_bind; [apply keeps_fifo_get|]. intros o.
      apply keeps_fifo_bind; [apply keeps_fifo_set_lna_gain|]. intros _.
      apply keeps_fifo_bind; [apply keeps_fifo_get|]. intros o'.
      apply keeps_fifo_bind; [apply keeps_fifo_set_mix_gain|]. intros _.
      apply keeps_fifo_ret.
Qed.

Lemma set_if_gain_open (gain : double) (o : airspy_source_c) (d : airspy_device) (value : Z) :
  _dev o = Some d ->
  double_to_unsigned 8 (clip (get_gain_range_named "MIX") gain true) = Some value ->
  set_if_gain gain o
  = if AIRSPY_SUCCESS =? fst (airspy_do (airspy_set_vga_gain value) d)
    then (Returns (clip (get_gain_range_named "MIX") gain true),
          upd_vga_gain (clip (get_gain_range_named "MIX") gain true)
            (upd_dev (Some (snd (airspy_do (airspy_set_vga_gain value) d))) o),
          [airspy_set_vga_gain value])
    else (Throws (airspy_func_failed (AIRSPY_FUNC_STR "airspy_set_vga_gain")
                    (fst (airspy_do (airspy_set_vga_gain value) d))),
          upd_dev (Some (snd (airspy_do (airspy_set_vga_gain value) d))) o,
          [airspy_set_vga_gain value]).
Proof.
  intros Hd Hv. unfold set_if_gain. unfold bind at 1 2. unfold get at 1. rewrite Hd.
  rewrite (set_stage_gain_open _ _ _ _ _ _ _ _ Hd Hv).
  destruct (AIRSPY_SUCCESS =? fst (airspy_do (airspy_set_vga_gain value) d)); reflexivity.
Qed.

(** The call and the name in the message that [set_gain] uses under
    each gain policy. *)
Lemma set_gain_open (gain : double) (o : airspy_source_c) (d : airspy_device) (value : Z)
      (cmd : Z -> airspy_call) (func : string) :
  _dev o = Some d ->
  double_to_unsigned 8 (clip get_gain_range gain true) = Some value ->
  (cmd, func) = match _gain_policy o with
                | linearity => (airspy_set_linearity_gain, "airspy_set_linearity_gain"%string)
                | sensitivity =>
                    (airspy_set_sensitivity_gain, "airspy_set_sensitivity_gain"%string)
                end ->
  set_gain gain o
  = if AIRSPY_SUCCESS =? fst (airspy_do (cmd value) d)
    then (Returns (clip get_gain_range gain true),
          upd_gain (clip get_gain_range gain true)
            (upd_dev (Some (snd (airspy_do (cmd value) d))) o),
          [cmd value])
    else (Throws (airspy_func_failed (AIRSPY_FUNC_STR func)
                    (fst (airspy_do (cmd value) d))),
          upd_dev (Some (snd (airspy_do (cmd value) d))) o,
          [cmd value]).
Proof.
  intros Hd Hv Hpol. unfold set_gain. unfold bind at 1 2. unfold get at 1. rewrite Hd.
  destruct (_gain_policy o); injection Hpol as -> ->;
    rewrite (set_stage_gain_open _ _ _ _ _ _ _ _ Hd Hv);
    match goal with |- context [AIRSPY_SUCCESS =? ?r] => destruct (AIRSPY_SUCCESS =? r) end;
    reflexivity.
Qed.

Lemma stage_gain_undefined gains gain cmd func store (o : airspy_source_c) :
  double_to_unsigned 8 (clip gains gain true) = None ->
  set_stage_gain gains gain cmd func store o = (Undefined, o, []).
Proof. intros Hv. unfold set_stage_gain. rewrite Hv. reflexivity. Qed.

Lemma upd_dev_same (o : airspy_source_c) : upd_dev (_dev o) o = o.
Proof. destruct o. reflexivity. Qed.

Lemma set_sample_rate_open (rate : double) (o : airspy_source_c) (d : airspy_device) :
  _dev o = Some d ->
  set_sample_rate rate o
  = match find_rate (_sample_rates o) rate false 0 with
    | (false, _) => (Throws (Unsupported_samplerate rate), o, [])
    | (true, index) =>
        if AIRSPY_SUCCESS =? fst (airspy_do (airspy_set_samplerate index) d)
        then (Returns rate,
              upd_sample_rate rate
                (upd_dev (Some (snd (airspy_do (airspy_set_samplerate index) d))) o),
              [airspy_set_samplerate index])
        else (Throws (airspy_func_failed (AIRSPY_FUNC_STR "airspy_set_samplerate")
                        (fst (airspy_do (airspy_set_samplerate index) d))),
              upd_dev (Some (snd (airspy_do (airspy_set_samplerate index) d))) o,
              [airspy_set_samplerate index])
    end.
Proof.
  intros Hd. unfold set_sample_rate, get_sample_rate. unfold bind at 1 2. unfold get at 1.
  rewrite Hd. destruct (find_rate (_sample_rates o) rate false 0) as [[|] index]; cbn [negb].
  - unfold bind at 1. rewrite (call_open _ _ _ Hd).
    unfold AIRSPY_THROW_ON_ERROR, modify, throw, ret.
    destruct (Z.eqb_spec AIRSPY_SUCCESS (fst (airspy_do (airspy_set_samplerate index) d)))
      as [E|E]; [reflexivity|].
    destruct (Z.eqb_spec (fst (airspy_do (airspy_set_samplerate index) d)) AIRSPY_SUCCESS);
      [congruence | reflexivity].
  - reflexivity.
Qed.

Lemma set_center_freq_uncastable (freq : double) (o : airspy_source_c) (d : airspy_device) :
  _dev o = Some d ->
  double_to_unsigned 64 (APPLY_PPM_CORR freq (_freq_corr o)) = None ->
  set_center_freq freq o = (Undefined, o, []).
Proof.
  intros Hd Hv. unfold set_center_freq, bind, get, undefined. rewrite Hd, Hv. reflexivity.
Qed.

Lemma set_lna_gain_uncastable (gain : double) (o : airspy_source_c) (d : airspy_device) :
  _dev o = Some d ->
  double_to_unsigned 8 (clip (get_gain_range_named "LNA") gain true) = None ->
  set_lna_gain gain o = (Undefined, o, []).
Proof.
  intros Hd Hv. unfold set_lna_gain, set_stage_gain, bind, get, undefined.
  rewrite Hd, Hv. reflexivity.
Qed.

Lemma set_mix_gain_uncastable (gain : double) (o : airspy_source_c) (d : airspy_device) :
  _dev o = Some d ->
  double_to_unsigned 8 (clip (get_gain_range_named "MIX") gain true) = None ->
  set_mix_gain gain o = (Undefined, o, []).
Proof.
  intros Hd Hv. unfold set_mix_gain, set_stage_gain, bind, get, undefined.
  rewrite Hd, Hv. reflexivity.
Qed.

Lemma set_if_gain_uncastable (gain : double) (o : airspy_source_c) (d : airspy_device) :
  _dev o = Some d ->
  double_to_unsigned 8 (clip (get_gain_range_named "MIX") gain true) = None ->
  set_if_gain gain o = (Undefined, o, []).
Proof.
  intros Hd Hv. unfold set_if_gain, set_stage_gain, bind, get, undefined.
  rewrite Hd, Hv. reflexivity.
Qed.

Lemma set_gain_uncastable (gain : double) (o : airspy_source_c) (d : airspy_device) :
  _dev o = Some d ->
  double_to_unsigned 8 (clip get_gain_range gain true) = None ->
  set_gain gain o = (Undefined, o, []).
Proof.
  intros Hd Hv. unfold set_gain, set_stage_gain, bind, get, undefined.
  rewrite Hd. destruct (_gain_policy o); rewrite Hv; reflexivity.
Qed.

(** X11.  A failing setter changes no cached value.  When
    [set_sample_rate], [set_center_freq], [set_gain], [set_lna_gain],
    [set_mix_gain] or [set_if_gain] throws, the object it leaves differs
    from the one it found at most in the device behind the handle. *)
Theorem throwing_setter_keeps_cache (x : double) (o : airspy_source_c) :
  (forall e, result_of (set_sample_rate x) o = Throws e ->
             state_after (set_sample_rate x) o
             = upd_dev (_dev (state_after (set_sample_rate x) o)) o) /\
  (forall e, result_of (set_center_freq x) o = Throws e ->
             state_after (set_center_freq x) o
             = upd_dev (_dev (state_after (set_center_freq x) o)) o) /\
  (forall e, result_of (set_gain x) o = Throws e ->
             state_after (set_gain x) o
             = upd_dev (_dev (state_after (set_gain x) o)) o) /\
  (forall e, result_of (set_lna_gain x) o = Throws e ->
             state_after (set_lna_gain x) o
             = upd_dev (_dev (state_after (set_lna_gain x) o)) o) /\
  (forall e, result_of (set_mix_gain x) o = Throws e ->
             state_after (set_mix_gain x) o
             = upd_dev (_dev (state_after (set_mix_gain x) o)) o) /\
  (forall e, result_of (set_if_gain x) o = Throws e ->
             state_after (set_if_gain x) o
             = upd_dev (_dev (state_after (set_if_gain x) o)) o).
Proof.
  unfold result_of, state_after.
  destruct (_dev o) as [d|] eqn:Hd.
  - split; [|split; [|split; [|split; [|split]]]]; intros e.
    + rewrite (set_sample_rate_open x o d Hd).
      destruct (find_rate (_sample_rates o) x false 0) as [[|] index].
      * destruct (AIRSPY_SUCCESS =? _); cbn; [discriminate | reflexivity].
      * cbn. intros _. symmetry. apply upd_dev_same.
    + destruct (double_to_unsigned 64 (APPLY_PPM_CORR x (_freq_corr o))) as [hz|] eqn:Hhz.
      * rewrite (set_center_freq_open x o d hz Hd Hhz).
        destruct (airspy_do (airspy_set_freq hz) d) as [r d'].
        destruct (AIRSPY_SUCCESS =? r); cbn; [discriminate | reflexivity].
      * rewrite (set_center_freq_uncastable x o d Hd Hhz). cbn. discriminate.
    + destruct (double_to_unsigned 8 (clip get_gain_range x true)) as [v|] eqn:Hv.
      * destruct (_gain_policy o) eqn:Hpol.
        -- rewrite (set_gain_open x o d v airspy_set_linearity_gain
                      "airspy_set_linearity_gain" Hd Hv) by (rewrite Hpol; reflexivity).
           destruct (AIRSPY_SUCCESS =? _); cbn; [discriminate | reflexivity].
        -- rewrite (set_gain_open x o d v airspy_set_sensitivity_gain
                      "airspy_set_sensitivity_gain" Hd Hv) by (rewrite Hpol; reflexivity).
           destruct (AIRSPY_SUCCESS =? _); cbn; [discriminate | reflexivity].
      * rewrite (set_gain_uncastable x o d Hd Hv). cbn. discriminate.
    + destruct (double_to_unsigned 8 (clip (get_gain_range_named "LNA") x true))
        as [v|] eqn:Hv.
      * rewrite (set_lna_gain_open x o d v Hd Hv).
        destruct (AIRSPY_SUCCESS =? _); cbn; [discriminate | reflexivity].
      * rewrite (set_lna_gain_uncastable x o d Hd Hv). cbn. discriminate.
    + destruct (double_to_unsigned 8 (clip (get_gain_range_named "MIX") x true))
        as [v|] eqn:Hv.
      * rewrite (set_mix_gain_open x o d v Hd Hv).
        destruct (AIRSPY_SUCCESS =? _); cbn; [discriminate | reflexivity].
      * rewrite (set_mix_gain_uncastable x o d Hd Hv). cbn. discriminate.
    + destruct (double_to_unsigned 8 (clip (get_gain_range_named "MIX") x true))
        as [v|] eqn:Hv.
      * rewrite (set_if_gain_open x o d v Hd Hv).
        destruct (AIRSPY_SUCCESS =? _); cbn; [discriminate | reflexivity].
      * rewrite (set_if_gain_uncastable x o d Hd Hv). cbn. discriminate.
  - unfold set_sample_rate, set_center_freq, set_gain, set_lna_gain, set_mix_gain,
      set_if_gain, get_sample_rate, get_center_freq.
    unfold bind, get, ret. rewrite Hd. cbn.
    repeat split; intros e He; discriminate He.
Qed.

(** X12.  On an open handle the overall gain goes to the device through
    the one call that the gain policy selects, linearity or sensitivity,
    with the clipped gain cut to [uint8_t]; no per-stage call is made,
    and when the setter returns, it returns the clipped gain, has cached
    it as [_gain] and has left the three per-stage gains alone. *)
Theorem set_gain_follows_policy
        (gain : double) (o : airspy_source_c) (d : airspy_device) (value : Z) :
  _dev o = Some d ->
  double_to_unsigned 8 (clip get_gain_range gain true) = Some value ->
  calls_made (set_gain gain) o
  = [match _gain_policy o with
     | linearity => airspy_set_linearity_gain value
     | sensitivity => airspy_set_sensitivity_gain value
     end] /\
  forall r, result_of (set_gain gain) o = Returns r ->
    r = clip get_gain_range gain true /\
    _gain (state_after (set_gain gain) o) = clip get_gain_range gain true /\
    _lna_gain (state_after (set_gain gain) o) = _lna_gain o /\
    _mix_gain (state_after (set_gain gain) o) = _mix_gain o /\
    _vga_gain (state_after (set_gain gain) o) = _vga_gain o.
Proof.
  intros Hd Hv. unfold calls_made, result_of, state_after.
  destruct (_gain_policy o) eqn:Hpol.
  - rewrite (set_gain_open gain o d value airspy_set_linearity_gain
               "airspy_set_linearity_gain" Hd Hv) by (rewrite Hpol; reflexivity).
    destruct (AIRSPY_SUCCESS =? _); cbn; (split; [reflexivity|]); intros r Hr;
      [injection Hr as <-; repeat split; reflexivity | discriminate Hr].
  - rewrite (set_gain_open gain o d value airspy_set_sensitivity_gain
               "airspy_set_sensitivity_gain" Hd Hv) by (rewrite Hpol; reflexivity).
    destruct (AIRSPY_SUCCESS =? _); cbn; (split; [reflexivity|]); intros r Hr;
      [injection Hr as <-; repeat split; reflexivity | discriminate Hr].
Qed.

(** Every setter ends by reading its cached field back. *)
Lemma returns_cached_field {A} (body : airspy_source_c -> M A)
      (field : airspy_source_c -> double) (o : airspy_source_c) (v : double) :
  fst (fst (bind get (fun o0 => bind (body o0)
                      (fun _ => bind get (fun o' => ret (field o')))) o)) = Returns v ->
  field (snd (fst (bind get (fun o0 => bind (body o0)
                      (fun _ => bind get (fun o' => ret (field o')))) o))) = v.
Proof.
  unfold bind, get, ret.
  destruct (body o o) as [[[a|e|] o1] t]; cbn; intros H;
    [injection H as <-; reflexivity | discriminate H | discriminate H].
Qed.

(** X13.  Set and read back by stage name agree: for every name
    ("LNA", "MIX", "IF" or any other, which means the overall gain),
    whatever [set_gain(gain, name)] returns is what [get_gain(name)]
    reports afterwards. *)
Theorem named_gain_round_trip
        (gain : double) (name : string) (o : airspy_source_c) (v : double) :
  result_of (set_gain_named gain name) o = Returns v ->
  result_of (get_gain_named name) (state_after (set_gain_named gain name) o) = Returns v.
Proof.
  unfold result_of, state_after, set_gain_named, get_gain_named, get_gain.
  destruct (String.eqb "LNA" name);
    [|destruct (String.eqb "MIX" name); [|destruct (String.eqb "IF" name)]];
    intros Hset.
  - apply (returns_cached_field _ _lna_gain) in Hset.
    change (Returns (_lna_gain (snd (fst (set_lna_gain gain o)))) = Returns v).
    f_equal. exact Hset.
  - apply (returns_cached_field _ _mix_gain) in Hset.
    change (Returns (_mix_gain (snd (fst (set_mix_gain gain o)))) = Returns v).
    f_equal. exact Hset.
  - apply (returns_cached_field _ _vga_gain) in Hset.
    change (Returns (_vga_gain (snd (fst (set_if_gain gain o)))) = Returns v).
    f_equal. exact Hset.
  - apply (returns_cached_field _ _gain) in Hset.
    change (Returns (_gain (snd (fst (set_gain gain o)))) = Returns v).
    f_equal. exact Hset.
Qed.

Lemma set_center_freq_effect (freq : double) (o : airspy_source_c) :
  _freq_corr (snd (fst (set_center_freq freq o))) = _freq_corr o /\
  (_center_freq (snd (fst (set_center_freq freq o))) = _center_freq o \/
   _center_freq (snd (fst (set_center_freq freq o))) = freq).
Proof.
  destruct (_dev o) as [d|] eqn:Hd.
  - destruct (double_to_unsigned 64 (APPLY_PPM_CORR freq (_freq_corr o))) as [hz|] eqn:Hhz.
    + rewrite (set_center_freq_open freq o d hz Hd Hhz).
      destruct (airspy_do (airspy_set_freq hz) d) as [r d'].
      destruct (AIRSPY_SUCCESS =? r); cbn; split; auto.
    + rewrite (set_center_freq_uncastable freq o d Hd Hhz). cbn. split; auto.
  - unfold set_center_freq, get_center_freq, bind, get, ret. rewrite Hd. cbn. split; auto.
Qed.

(** X14.  [set_freq_corr] stores the correction before it talks to the
    device: however the call ends, also when the device refuses the
    retuning and the call throws, [_freq_corr] holds the new value
    afterwards and the cached centre frequency is the one it was; a
    call that returns, returns the new correction. *)
Theorem set_freq_corr_always_stores (ppm : double) (o : airspy_source_c) :
  _freq_corr (state_after (set_freq_corr ppm) o) = ppm /\
  _center_freq (state_after (set_freq_corr ppm) o) = _center_freq o /\
  forall v, result_of (set_freq_corr ppm) o = Returns v -> v = ppm.
Proof.
  unfold state_after, result_of. rewrite (set_freq_corr_unfold ppm o).
  destruct (set_center_freq_effect (_center_freq o) (upd_freq_corr ppm o)) as [Hcorr Hfreq].
  cbn [_freq_corr _center_freq upd_freq_corr] in Hcorr, Hfreq.
  destruct (set_center_freq (_center_freq o) (upd_freq_corr ppm o)) as [[[a|e|] o1] t];
    cbn [fst snd] in *.
  - split; [exact Hcorr|]. split; [destruct Hfreq; assumption|].
    intros v Hv. injection Hv as <-. exact Hcorr.
  - split; [exact Hcorr|]. split; [destruct Hfreq; assumption|]. intros v Hv. discriminate Hv.
  - split; [exact Hcorr|]. split; [destruct Hfreq; assumption|]. intros v Hv. discriminate Hv.
Qed.

(** X15.  Switching the automatic mode on ignores what the device
    answers: on an open handle the two AGC calls are made, the call
    returns true and [_auto_gain] is set, also when the device refuses
    both. *)
Theorem agc_on_ignores_device_answers (o : airspy_source_c) (d : airspy_device) :
  _dev o = Some d ->
  result_of (set_gain_mode true) o = Returns true /\
  calls_made (set_gain_mode true) o = [airspy_set_lna_agc 1; airspy_set_mixer_agc 1] /\
  result_of get_gain_mode (state_after (set_gain_mode true) o) = Returns true.
Proof.
  intros Hd. destruct (set_gain_mode_on_open o d Hd) as [d2 Hon].
  unfold result_of, calls_made, state_after. rewrite Hon. repeat split; reflexivity.
Qed.

Lemma find_rate_last (rate : double) (before : list (double * Z)) :
  forall (first : double) (index : Z) (after : list (double * Z)) found i,
    PrimFloat.eqb first rate = true ->
    existsb (rate_matches rate) after = false ->
    find_rate (before ++ (first, index) :: after) rate found i = (true, index).
Proof.
  induction before as [|[f s] rest IH]; intros first index after found i Heq Hnone.
  - cbn [app find_rate]. rewrite Heq. apply find_rate_none. exact Hnone.
  - cbn [app find_rate]. destruct (PrimFloat.eqb f rate); apply IH; assumption.
Qed.

(** X16.  When several entries of the rate list equal the requested
    rate, the device is sent the index stored with the last of them
    (the search loop does not stop at its first match). *)
Theorem set_sample_rate_last_match_wins
        (rate first : double) (index : Z) (before after : list (double * Z))
        (o : airspy_source_c) (d : airspy_device) :
  _dev o = Some d ->
  _sample_rates o = before ++ (first, index) :: after ->
  PrimFloat.eqb first rate = true ->
  existsb (rate_matches rate) after = false ->
  calls_made (set_sample_rate rate) o = [airspy_set_samplerate index].
Proof.
  intros Hd Hrates Heq Hnone. unfold calls_made.
  rewrite (set_sample_rate_open rate o d Hd), Hrates.
  rewrite (find_rate_last rate before first index after false 0 Heq Hnone).
  destruct (AIRSPY_SUCCESS =? _); reflexivity.
Qed.

(** Switching the automatic mode off: where a run that does not return
    leaves [_auto_gain]. *)
Lemma set_gain_mode_off_mode (o : airspy_source_c) (d : airspy_device) (l m : Z) :
  _dev o = Some d ->
  double_to_unsigned 8 (clip (get_gain_range_named "LNA") (_lna_gain o) true) = Some l ->
  double_to_unsigned 8 (clip (get_gain_range_named "MIX") (_mix_gain o) true) = Some m ->
  exists r o' t,
    set_gain_mode false o = (r, o', t) /\
    (r = Returns false \/ _auto_gain o' = _auto_gain o) /\
    exists rest,
      t = airspy_set_lna_agc 0 :: airspy_set_mixer_agc 0 :: rest /\
      _dev o' = Some (run_calls rest
                        (snd (airspy_do (airspy_set_mixer_agc 0)
                                (snd (airspy_do (airspy_set_lna_agc 0) d))))).
Proof.
  intros Hd Hl Hm. unfold set_gain_mode.
  set (d1 := snd (airspy_do (airspy_set_lna_agc 0) d)).
  set (d2 := snd (airspy_do (airspy_set_mixer_agc 0) d1)).
  set (o2 := upd_dev (Some d2) (upd_dev (Some d1) o)).
  assert (Hd2 : _dev o2 = Some d2) by reflexivity.
  assert (Hl2 : double_to_unsigned 8 (clip (get_gain_range_named "LNA") (_lna_gain o2) true)
                = Some l) by exact Hl.
  pose proof (set_lna_gain_open (_lna_gain o2) o2 d2 l Hd2 Hl2) as Hlna.
  destruct (AIRSPY_SUCCESS =? fst (airspy_do (airspy_set_lna_gain l) d2)).
  - set (o3 := upd_lna_gain (clip (get_gain_range_named "LNA") (_lna_gain o2) true)
                 (upd_dev (Some (snd (airspy_do (airspy_set_lna_gain l) d2))) o2)) in *.
    assert (Hd3 : _dev o3 = Some (snd (airspy_do (airspy_set_lna_gain l) d2))) by reflexivity.
    assert (Hm3 : double_to_unsigned 8 (clip (get_gain_range_named "MIX") (_mix_gain o3) true)
                  = Some m) by exact Hm.
    pose proof (set_mix_gain_open (_mix_gain o3) o3 _ m Hd3 Hm3) as Hmix.
    destruct (AIRSPY_SUCCESS =? fst (airspy_do (airspy_set_mixer_gain m)
                                       (snd (airspy_do (airspy_set_lna_gain l) d2)))).
    + eexists _, _, _. split.
      * eapply (runs_bind _ _ o).
        -- eapply runs_bind; [apply (call_open _ _ _ Hd)|].
           eapply runs_bind; [apply call_open; reflexivity|].
           eapply runs_bind; [reflexivity|].
           eapply runs_bind; [exact Hlna|].
           eapply runs_bind; [reflexivity|].
           eapply runs_bind; [exact Hmix|]. reflexivity.
        -- reflexivity.
      * split; [left; reflexivity|]. eexists. split; reflexivity.
    + eexists _, _, _. split.
      * eapply (runs_bind_throws _ _ o).
        eapply runs_bind; [apply (call_open _ _ _ Hd)|].
        eapply runs_bind; [apply call_open; reflexivity|].
        eapply runs_bind; [reflexivity|].
        eapply runs_bind; [exact Hlna|].
        eapply runs_bind; [reflexivity|].
        eapply runs_bind_throws. exact Hmix.
      * split; [right; reflexivity|]. eexists. split; reflexivity.
  - eexists _, _, _. split.
    + eapply (runs_bind_throws _ _ o).
      eapply runs_bind; [apply (call_open _ _ _ Hd)|].
      eapply runs_bind; [apply call_open; reflexivity|].
      eapply runs_bind; [reflexivity|].
      eapply runs_bind_throws. exact Hlna.
    + split; [right; reflexivity|]. eexists. split; reflexivity.
Qed.

(** X17.  A switch back to manual gain that fails leaves the mode flag
    where it was.  When [set_gain_mode(false)] throws, the two AGC-off
    calls have been made, first of all and in this order, their answers
    unread, and the device behind the handle is the one that they and
    the gain calls after them have left; yet [_auto_gain] is not
    updated, and [get_gain_mode] reports the mode from before the call. *)
Theorem failed_manual_switch_keeps_mode_flag
        (o : airspy_source_c) (d : airspy_device) (l m : Z) (e : runtime_error) :
  _dev o = Some d ->
  double_to_unsigned 8 (clip (get_gain_range_named "LNA") (_lna_gain o) true) = Some l ->
  double_to_unsigned 8 (clip (get_gain_range_named "MIX") (_mix_gain o) true) = Some m ->
  result_of (set_gain_mode false) o = Throws e ->
  result_of get_gain_mode (state_after (set_gain_mode false) o) = Returns (_auto_gain o) /\
  exists rest,
    calls_made (set_gain_mode false) o
    = airspy_set_lna_agc 0 :: airspy_set_mixer_agc 0 :: rest /\
    _dev (state_after (set_gain_mode false) o)
    = Some (run_calls rest
              (snd (airspy_do (airspy_set_mixer_agc 0)
                      (snd (airspy_do (airspy_set_lna_agc 0) d))))).
Proof.
  intros Hd Hl Hm.
  destruct (set_gain_mode_off_mode o d l m Hd Hl Hm)
    as (r & o' & t & Hrun & Hmode & rest & -> & Hdev).
  unfold result_of, state_after, calls_made. rewrite Hrun. cbn [fst snd].
  intros ->. destruct Hmode as [Hr|Hauto]; [discriminate Hr|].
  split; [|exists rest; split; [reflexivity | exact Hdev]].
  unfold get_gain_mode, bind, get, ret. cbn. rewrite Hauto. reflexivity.
Qed.

(** X18.  Every rate that [get_sample_rates] advertises can be set: on
    an open handle, [set_sample_rate] of the start of any advertised
    range (not a NaN) finds it in the rate list and sends the device an
    index stored with an equal rate, instead of throwing "Unsupported
    samplerate". *)
Theorem advertised_rates_are_settable
        (r : range_t) (o : airspy_source_c) (d : airspy_device) :
  _dev o = Some d ->
  In r (get_sample_rates o) ->
  is_nan (range_start r) = false ->
  range_stop r = range_start r /\
  exists first index,
    In (first, index) (_sample_rates o) /\
    PrimFloat.eqb first (range_start r) = true /\
    calls_made (set_sample_rate (range_start r)) o = [airspy_set_samplerate index].
Proof.
  intros Hd Hin Hnan. unfold get_sample_rates in Hin.
  apply in_map_iff in Hin. destruct Hin as ([rate idx] & <- & Hin).
  cbn [range_start range_stop fst] in *. split; [reflexivity|].
  assert (Hex : existsb (rate_matches rate) (_sample_rates o) = true).
  { apply existsb_exists. exists (rate, idx). split; [exact Hin|].
    unfold rate_matches. cbn [fst]. unfold is_nan in Hnan.
    apply negb_false_iff in Hnan. exact Hnan. }
  destruct (find_rate_some rate (_sample_rates o) false 0 Hex)
    as (first & index & Hin' & Heq & Hfind).
  exists first, index. split; [exact Hin'|]. split; [exact Heq|].
  unfold calls_made. rewrite (set_sample_rate_open rate o d Hd), Hfind.
  destruct (AIRSPY_SUCCESS =? _); reflexivity.
Qed.

End ControlEdges.

(** ** Teardown *)

Section TeardownFacts.

Context {lib : AirspyLib} {closing : AirspyClose}.


End TeardownFacts.

(** ** The further properties on the simulated device *)

Lemma run_with_fifo_ok (k : nat) : (k <= 10)%nat -> fifo_ok (run_with k).
Proof.
  intros Hk. unfold fifo_ok, run_with, CB.size. cbn [_fifo upd_fifo CB.elems CB.capacity].
  assert (Hlen : (length (decode_iq (ramp k) k) <= k)%nat).
  { generalize (ramp k). induction k as [|k IH]; intros [|i [|q rest]]; simpl; try lia.
    assert (k <= 10)%nat by lia. specialize (IH H rest). lia. }
  unfold INT_MAX. lia.
Qed.

(** X1 on a count of -1 delivered to a buffer with room for three. *)
Lemma rx_callback_reports_witness :
  exists r o',
    airspy_rx_callback (ramp 5) (-1) (run_with 7) = Some (r, o') /\
    accepted (run_with 7) o' = 3 /\
    cb_return r = 0 /\
    (cb_notified r = true <-> 0 < accepted (run_with 7) o') /\
    (cb_cerr r = "O"%string <-> accepted (run_with 7) o' < to_size_t (-1)).
Proof.
  eexists _, _. split; [reflexivity|].
  apply (rx_callback_reports (ramp 5) (-1) (run_with 7)).
  - apply run_with_fifo_ok. repeat constructor.
  - reflexivity.
Defined.

(** X2 on the same transfer: five samples are enough for the three
    that fit. *)
Lemma rx_callback_reads_what_it_copies_witness :
  airspy_rx_callback (ramp 5) (-1) (run_with 7) <> None
  <-> 2 * Z.min (CB.capacity (_fifo (run_with 7)) - CB.size (_fifo (run_with 7)))
                (to_size_t (-1))
      <= Z.of_nat (length (ramp 5)).
Proof.
  apply (rx_callback_reads_what_it_copies (ramp 5) (-1) (run_with 7)).
  apply run_with_fifo_ok. repeat constructor.
Defined.

(** X3 on a full buffer and a transfer that claims four samples but
    holds none. *)
Lemma rx_callback_on_full_buffer_witness :
  airspy_rx_callback [] 4 (run_with 10)
  = Some (mk_callback_result 0 false "O"%string, run_with 10).
Proof.
  apply (rx_callback_on_full_buffer [] 4 (run_with 10)).
  - apply run_with_fifo_ok. repeat constructor.
  - reflexivity.
Defined.

(** X4 on two overrunning callbacks around a [stop]. *)
Lemma buffer_is_append_only_witness :
  exists o',
    run_events [EvCallback (ramp 8) 8; EvStop; EvCallback (ramp 8) 8; EvWake] (run_with 3)
    = Some o' /\
    CB.capacity (_fifo o') = CB.capacity (_fifo (run_with 3)) /\
    CB.size (_fifo o') <= CB.capacity (_fifo (run_with 3)) /\
    exists added, CB.elems (_fifo o') = CB.elems (_fifo (run_with 3)) ++ added.
Proof.
  eexists. split; [reflexivity|].
  apply (buffer_is_append_only
           [EvCallback (ramp 8) 8; EvStop; EvCallback (ramp 8) 8; EvWake] (run_with 3)).
  - apply run_with_fifo_ok. repeat constructor.
  - reflexivity.
Defined.

(** X5 on a consumer woken with an empty buffer. *)
Lemma work_never_out_of_range_witness :
  (forall o', work 2 [EvWake] run0 <> WorkOutOfRange o') /\
  work 2 [EvWake] run0 = WorkBlocked run0.
Proof.
  split; [|reflexivity].
  apply (work_never_out_of_range 2 [EvWake] run0).
  - exists (mk_sim true AIRSPY_SUCCESS). split; reflexivity.
  - unfold fifo_ok. vm_compute. split; discriminate.
Defined.

(** X6 on a request for eleven samples of a buffer of ten, filled. *)
Lemma work_beyond_capacity_never_returns_witness :
  (forall r out o',
      work 11 [EvCallback (ramp 10) 10; EvWake] run0 <> WorkReturned r out o') /\
  work 11 [EvCallback (ramp 10) 10; EvWake] run0 = WorkBlocked (run_with 10).
Proof.
  split; [|reflexivity].
  apply (work_beyond_capacity_never_returns 11 [EvCallback (ramp 10) 10; EvWake] run0).
  - exists (mk_sim true AIRSPY_SUCCESS). split; reflexivity.
  - unfold fifo_ok. vm_compute. split; discriminate.
  - reflexivity.
Defined.

(** X7 on a request for no samples of an empty buffer. *)
Lemma work_for_nothing_returns_at_once_witness :
  work 0 [] run0 = WorkReturned 0 [] run0.
Proof.
  apply (work_for_nothing_returns_at_once 0 [] run0).
  - exists (mk_sim true AIRSPY_SUCCESS). split; reflexivity.
  - unfold fifo_ok. vm_compute. split; discriminate.
  - vm_compute. discriminate.
Defined.

(** X8 on pulls of two and three samples out of six. *)
Lemma consecutive_pulls_concatenate_witness :
  exists out1 o1 out2 o2,
    work 2 [] (run_with 6) = WorkReturned 2 out1 o1 /\
    work 3 [] o1 = WorkReturned 3 out2 o2 /\
    work (2 + 3) [] (run_with 6) = WorkReturned (2 + 3) (out1 ++ out2) o2 /\
    out1 ++ out2 ++ CB.elems (_fifo o2) = CB.elems (_fifo (run_with 6)).
Proof.
  apply (consecutive_pulls_concatenate 2 3 [] [] [] (run_with 6)).
  - exists (mk_sim true AIRSPY_SUCCESS). split; reflexivity.
  - apply run_with_fifo_ok. repeat constructor.
  - vm_compute. discriminate.
  - vm_compute. discriminate.
  - vm_compute. discriminate.
Defined.

(** X11 on a device that refuses the sample rate and the LNA gain. *)
Lemma throwing_setter_keeps_cache_witness :
  state_after (set_sample_rate 10000000) refusing0
  = upd_dev (_dev (state_after (set_sample_rate 10000000) refusing0)) refusing0 /\
  state_after (set_lna_gain 9) refusing0
  = upd_dev (_dev (state_after (set_lna_gain 9) refusing0)) refusing0.
Proof.
  split.
  - apply (proj1 (throwing_setter_keeps_cache 10000000 refusing0)
             (airspy_func_failed "airspy_set_samplerate(%d) has failed" (-5))).
    reflexivity.
  - apply (proj1 (proj2 (proj2 (proj2 (throwing_setter_keeps_cache 9 refusing0))))
             (airspy_func_failed "airspy_set_lna_gain(%d) has failed" (-5))).
    reflexivity.
Defined.

(** X12 under the linearity policy, with a gain above the range. *)
Lemma set_gain_follows_policy_witness :
  calls_made (set_gain 25.3) open0 = [airspy_set_linearity_gain 21] /\
  forall r, result_of (set_gain 25.3) open0 = Returns r ->
    r = clip get_gain_range 25.3 true /\
    _gain (state_after (set_gain 25.3) open0) = clip get_gain_range 25.3 true /\
    _lna_gain (state_after (set_gain 25.3) open0) = _lna_gain open0 /\
    _mix_gain (state_after (set_gain 25.3) open0) = _mix_gain open0 /\
    _vga_gain (state_after (set_gain 25.3) open0) = _vga_gain open0.
Proof.
  apply (set_gain_follows_policy 25.3 open0 (mk_sim false AIRSPY_SUCCESS) 21);
    reflexivity.
Defined.

(** X13 on the IF stage: 7.6 is clipped to 8 and read back as 8. *)
Lemma named_gain_round_trip_witness :
  result_of (get_gain_named "IF") (state_after (set_gain_named 7.6 "IF") open0)
  = Returns 8%float.
Proof.
  apply (named_gain_round_trip 7.6 "IF" open0 8). reflexivity.
Defined.

(** X15 on a device that refuses both AGC calls. *)
Lemma agc_on_ignores_device_answers_witness :
  result_of (set_gain_mode true) refusing0 = Returns true /\
  calls_made (set_gain_mode true) refusing0
  = [airspy_set_lna_agc 1; airspy_set_mixer_agc 1] /\
  result_of get_gain_mode (state_after (set_gain_mode true) refusing0) = Returns true.
Proof.
  apply (agc_on_ignores_device_answers refusing0 (mk_sim false (-5))). reflexivity.
Defined.

(** X16 on a list that holds 10 MS/s under the indices 0 and 2. *)
Lemma set_sample_rate_last_match_wins_witness :
  calls_made (set_sample_rate 10000000) dup0 = [airspy_set_samplerate 2].
Proof.
  apply (set_sample_rate_last_match_wins 10000000 10000000 2
           [(2500000%float, 1); (10000000%float, 0)] [] dup0
           (mk_sim false AIRSPY_SUCCESS)); reflexivity.
Defined.

(** X17 on a device that honours the AGC calls and refuses the manual
    LNA gain: after the failed switch the device has both AGCs off,
    while the block still reports the automatic mode. *)
Lemma failed_manual_switch_keeps_mode_flag_witness :
  result_of (set_gain_mode false) agc_block
  = Throws (airspy_func_failed "airspy_set_lna_gain(%d) has failed" (-5)) /\
  calls_made (set_gain_mode false) agc_block
  = [airspy_set_lna_agc 0; airspy_set_mixer_agc 0; airspy_set_lna_gain 0] /\
  _dev agc_block = Some (mk_agc true true) /\
  _dev (state_after (set_gain_mode false) agc_block) = Some (mk_agc false false) /\
  (result_of get_gain_mode (state_after (set_gain_mode false) agc_block) = Returns true /\
   exists rest,
     calls_made (set_gain_mode false) agc_block
     = airspy_set_lna_agc 0 :: airspy_set_mixer_agc 0 :: rest /\
     _dev (state_after (set_gain_mode false) agc_block)
     = Some (run_calls (lib := agc_lib) rest
               (snd (agc_do (airspy_set_mixer_agc 0)
                       (snd (agc_do (airspy_set_lna_agc 0) (mk_agc true true))))))).
Proof.
  split; [reflexivity|]. split; [reflexivity|]. split; [reflexivity|].
  split; [reflexivity|].
  apply (failed_manual_switch_keeps_mode_flag (lib := agc_lib) agc_block
           (mk_agc true true) 0 0
           (airspy_func_failed "airspy_set_lna_gain(%d) has failed" (-5)));
    reflexivity.
Defined.

(** X18 on the advertised rate 10 MS/s. *)
Lemma advertised_rates_are_settable_witness :
  range_stop (mk_range 10000000 10000000 0) = range_start (mk_range 10000000 10000000 0) /\
  exists first index,
    In (first, index) (_sample_rates open0) /\
    PrimFloat.eqb first (range_start (mk_range 10000000 10000000 0)) = true /\
    calls_made (set_sample_rate (range_start (mk_range 10000000 10000000 0))) open0
    = [airspy_set_samplerate index].
Proof.
  apply (advertised_rates_are_settable (mk_range 10000000 10000000 0) open0
           (mk_sim false AIRSPY_SUCCESS)).
  - reflexivity.
  - right. left. reflexivity.
  - reflexivity.
Defined.


(** The destructor on the simulated device: streaming and willing,
    streaming and refusing, idle, and with the null handle. *)
Example destructor_examples :
  destructor run0
  = mk_teardown td_completed None None [td_call airspy_stop_rx; td_close] /\
  destructor (sim_block (Some (mk_sim true (-5))) 10)
  = mk_teardown (td_terminated (airspy_func_failed "Failed to stop RX streaming" (-5)))
      (Some (mk_sim true (-5))) (Some (CB.mk 10 [])) [td_call airspy_stop_rx] /\
  td_calls (destructor open0) = [td_close] /\
  td_calls (destructor closed0) = [].
Proof. repeat split; reflexivity. Qed.
